(** * CS231n assignment 3: network visualization and style transfer notebooks

    A shallow embedding of the code cells of
    [assignment3/.ipynb_checkpoints/NetworkVisualization-TensorFlow-checkpoint.ipynb]
    (the file holds two notebooks: network visualization, then style
    transfer) and the properties of those cells.

    Conventions.
    - A rank-4 tensor (batch, height, width, channels) is a four-fold nested
      list; scalars are rationals [Q] (the notebooks compute in floating
      point; rounding, infinities and NaN are outside this model).
    - A Python call that can raise returns a [result]; a Python value that
      may be [None] is an [option].
    - numpy arrays are mutable and shared, so where aliasing matters they
      live in a heap of arrays indexed by locations.
    - The pretrained network, the automatic differentiation tape and the
      Adam update rule belong to TensorFlow, not to the notebooks: they are
      parameters of the development. *)

From Stdlib Require Import ZArith QArith Qminmax Qabs Lia Lqa.
From stdpp Require Import base list gmap.

(** [lmap f l]: [f] on every element of the list [l]. *)
Abbreviation lmap := (fmap (M:=list)).

Close Scope Q_scope.
Open Scope Z_scope.
Open Scope nat_scope.

(** ** Python values: exceptions and slices *)

Module Py.

Inductive exn : Type :=
| TypeError
| AssertionError
| IndexError
| ValueError.

Inductive result (A : Type) : Type :=
| Ok (a : A)
| Raise (e : exn).
Arguments Ok {A} a.
Arguments Raise {A} e.

Definition bind {A B : Type} (r : result A) (k : A → result B) : result B :=
  match r with
  | Ok a => k a
  | Raise e => Raise e
  end.

Definition raised {A : Type} (r : result A) : bool :=
  match r with
  | Ok _ => false
  | Raise _ => true
  end.

(** A slice bound [k] on a sequence of length [len]: a negative bound counts
    from the end, and the result is clipped to [0..len]. *)
Definition slice_bound (len : nat) (k : Z) : nat :=
  if (k <? 0)%Z then Z.to_nat (Z.of_nat len + k) else Z.to_nat k `min` len.

(** [l[:k]] *)
Definition slice_to {A : Type} (l : list A) (k : Z) : list A :=
  take (slice_bound (length l) k) l.

(** [l[k:]] *)
Definition slice_from {A : Type} (l : list A) (k : Z) : list A :=
  drop (slice_bound (length l) k) l.

(** [l[-k:] + l[:-k]]: for [0 < k < len(l)] the last [k] elements move to
    the front; for [k < 0] the first [-k] elements move to the back. *)
Definition roll {A : Type} (k : Z) (l : list A) : list A :=
  slice_from l (- k) ++ slice_to l (- k).

(** [l[i]] with a non-negative index: out of range raises [IndexError]. *)
Definition index {A : Type} (l : list A) (i : nat) : result A :=
  match l !! i with
  | Some a => Ok a
  | None => Raise IndexError
  end.

End Py.

#[global] Instance result_ret : MRet Py.result := @Py.Ok.
#[global] Instance result_bind : MBind Py.result := λ A B k r, Py.bind r k.

(** ** Tensors *)

Module Tensor.

(** Shape (N, H, W, C): images, rows, pixels, channels. *)
Abbreviation tensor4 A := (list (list (list (list A)))).

Abbreviation tensor := (tensor4 Q).

Abbreviation matrix := (list (list Q)).

Definition has_shape {A : Type} (X : tensor4 A) (N H W C : nat) : Prop :=
  length X = N ∧
  Forall (λ img, length img = H ∧
    Forall (λ row, length row = W ∧
      Forall (λ px : list A, length px = C) row) img) X.

(** The pixel (all channels) at image [n], row [i], column [j]. *)
Definition pixel {A : Type} (X : tensor4 A) (n i j : nat) : option (list A) :=
  img ← X !! n; row ← img !! i; row !! j.

(** [X[:, :, :k]] and [X[:, :, k:]]: slices along the width axis. *)
Definition slice_w_to {A : Type} (X : tensor4 A) (k : Z) : tensor4 A :=
  lmap (lmap (λ row, Py.slice_to row k)) X.
Definition slice_w_from {A : Type} (X : tensor4 A) (k : Z) : tensor4 A :=
  lmap (lmap (λ row, Py.slice_from row k)) X.

(** [X[:, :k]] and [X[:, k:]]: slices along the height axis. *)
Definition slice_h_to {A : Type} (X : tensor4 A) (k : Z) : tensor4 A :=
  lmap (λ img, Py.slice_to img k) X.
Definition slice_h_from {A : Type} (X : tensor4 A) (k : Z) : tensor4 A :=
  lmap (λ img, Py.slice_from img k) X.

(** [tf.concat([P, R], axis=2)] and [tf.concat([P, R], axis=1)]. *)
Definition concat_w {A : Type} (P R : tensor4 A) : tensor4 A :=
  zip_with (zip_with app) P R.
Definition concat_h {A : Type} (P R : tensor4 A) : tensor4 A :=
  zip_with app P R.

(** [tf.clip_by_value(x, lo, hi)] on one entry: [maximum(minimum(x, hi), lo)]. *)
Definition clip_entry (lo hi x : Q) : Q := Qmax (Qmin x hi) lo.

Definition clip_by_value (X : tensor) (lo hi : Q) : tensor :=
  lmap (lmap (lmap (lmap (clip_entry lo hi)))) X.

(** [lo <= x <= hi] *)
Definition in_range (lo hi x : Q) : Prop := (lo <= x)%Q ∧ (x <= hi)%Q.

(** Every entry of the tensor satisfies [P]. *)
Definition all_entries (P : Q → Prop) (X : tensor) : Prop :=
  Forall (Forall (Forall (Forall P))) X.

End Tensor.

(** ** The pretrained network

    [cs231n/classifiers/squeezenet.py] is not part of the notebooks. A model
    is what the notebooks use of it: the layers of [cnn.net], each a map on
    tensors, and the call [model(X)], which gives one row of class scores
    per image. *)

Module Model.
Import Tensor.

Record Sequential : Type := { layers : list (tensor → tensor) }.

Record SqueezeNet : Type := {
  net : Sequential;
  call : tensor → list (list Q)
}.

End Model.

(** ** Notebook 1: network visualization *)

Module NetworkVisualization.
Import Tensor Model.

(** numpy arrays are objects on a heap; a name holds a location. *)
Definition loc : Type := positive.
Definition heap : Type := gmap loc tensor.

(** [X.copy()]: a new array with the contents of [X]. *)
Definition ndarray_copy (h : heap) (X : loc) : heap * loc :=
  let l := fresh (dom h) in
  (<[l := h !!! X]> h, l).

(** [compute_saliency_maps(X, y, model)]: the body between the markers is
    [pass], so the function returns the initial value of [saliency]. *)
Definition compute_saliency_maps (X : tensor) (y : list Z) (model : SqueezeNet)
    : option (list (list (list Q))) :=
  let saliency := None in
  (* pass *)
  saliency.

(** [make_fooling_image(X, target_y, model)]: the body between the markers
    is [pass]. *)
Definition make_fooling_image (h : heap) (X : loc) (target_y : Z)
    (model : SqueezeNet) : heap * loc :=
  let '(h, X_fooling) := ndarray_copy h X in
  let learning_rate := 1%Z in
  (* pass *)
  (h, X_fooling).

(** [tf.math.argmax]: the index of the largest entry, the smallest such
    index on ties; there is none in an empty vector. *)
Fixpoint argmax_from (best_i : nat) (best : Q) (i : nat) (l : list Q) : nat :=
  match l with
  | [] => best_i
  | x :: l' =>
      if Qlt_le_dec best x then argmax_from i x (S i) l'
      else argmax_from best_i best (S i) l'
  end.

Definition argmax (l : list Q) : Py.result nat :=
  match l with
  | [] => Py.Raise Py.ValueError
  | x :: l' => Py.Ok (argmax_from 0 x 1 l')
  end.

(** The class the model predicts for the first image of a batch:
    [tf.math.argmax(model(X)[0])]. *)
Definition predicted_class (model : SqueezeNet) (X : tensor) : Py.result nat :=
  scores0 ← Py.index (call model X) 0;
  argmax scores0.

(** The cell that makes the fooling image and checks it, from
    [target_y = 6] to the [assert]; [Xi] is the array [X[idx][None]]. *)
Definition fooling_cell (h : heap) (Xi : loc) (model : SqueezeNet)
    : Py.result (heap * loc) :=
  let target_y := 6%Z in
  let '(h, X_fooling) := make_fooling_image h Xi target_y model in
  c ← predicted_class model (h !!! X_fooling);
  if decide (Z.of_nat c = target_y) then Py.Ok (h, X_fooling)
  else Py.Raise Py.AssertionError.

(** [jitter(X, ox, oy)] *)
Definition jitter {A : Type} (X : tensor4 A) (ox oy : Z) : tensor4 A :=
  let X :=
    if decide (ox ≠ 0%Z) then
      let left := slice_w_to X (- ox) in
      let right := slice_w_from X (- ox) in
      concat_w right left
    else X in
  let X :=
    if decide (oy ≠ 0%Z) then
      let top := slice_h_to X (- oy) in
      let bottom := slice_h_from X (- oy) in
      concat_h bottom top
    else X in
  X.

End NetworkVisualization.

(** ** Notebook 2: style transfer *)

Module StyleTransfer.
Import Tensor Model.

(** What a cell prints; a number stands for its formatted text. *)
Inductive line : Type :=
| MaximumErrorIs (error : Q)
| ErrorIs (error : Q)
| Iteration (t : nat)
| InitializingRandomly
| InitializingWithContentImage.

(** [rel_error(x, y)] on one pair of entries:
    [abs(x - y) / maximum(1e-8, abs(x) + abs(y))]. *)
Definition rel_error_entry (x y : Q) : Q :=
  (Qabs (x - y) / Qmax (1 # 100000000) (Qabs x + Qabs y))%Q.

(** [np.max] of the entries of an array; an empty array has no maximum. *)
Definition np_max (entries : list Q) : Py.result Q :=
  match entries with
  | [] => Py.Raise Py.ValueError
  | x :: rest => Py.Ok (foldl Qmax x rest)
  end.

(** [rel_error(x, y)] for a scalar reference [x]; [y] is what the checked
    function returned, and [x - None] is a [TypeError]. *)
Definition rel_error (x : Q) (y : option Q) : Py.result Q :=
  match y with
  | None => Py.Raise Py.TypeError
  | Some y => Py.Ok (rel_error_entry x y)
  end.

(** [rel_error(x, y)] for a reference matrix [x]. Arrays of the same shape
    are compared entry by entry; numpy's broadcasting of unequal shapes is
    not modelled and counts as a shape error. *)
Definition rel_error_matrix (x : matrix) (y : option matrix) : Py.result Q :=
  match y with
  | None => Py.Raise Py.TypeError
  | Some y =>
      if decide (length <$> x = length <$> y)
      then np_max (concat (zip_with (zip_with rel_error_entry) x y))
      else Py.Raise Py.ValueError
  end.

(** *** The cells to be completed: each body is [pass], so each call
    returns [None]. *)

Definition content_loss (content_weight : Q) (content_current content_original : tensor)
    : option Q :=
  (* pass *)
  None.

Definition gram_matrix (features : tensor) (normalize : bool) : option matrix :=
  (* pass *)
  None.

Definition style_loss (feats : list tensor) (style_layers : list nat)
    (style_targets : list (option matrix)) (style_weights : list Q) : option Q :=
  (* pass *)
  None.

Definition tv_loss (img : tensor) (tv_weight : Q) : option Q :=
  (* pass *)
  None.

(** Python looks a function up by name when it is called, so the test
    cells and [style_transfer] run whatever the four cells above define at
    that time. [cells] is that part of the global namespace;
    [notebook_cells] is its content in the notebook as it stands. *)
Record cells : Type := {
  content_loss_fn : Q → tensor → tensor → option Q;
  gram_matrix_fn : tensor → bool → option matrix;
  style_loss_fn : list tensor → list nat → list (option matrix) → list Q → option Q;
  tv_loss_fn : tensor → Q → option Q
}.

Definition notebook_cells : cells := {|
  content_loss_fn := content_loss;
  gram_matrix_fn := gram_matrix;
  style_loss_fn := style_loss;
  tv_loss_fn := tv_loss
|}.

(** [extract_features(x, cnn)] *)
Definition extract_features (x : tensor) (cnn : SqueezeNet) : list tensor :=
  let features := [] in
  let prev_feat := x in
  let '(features, prev_feat) :=
    foldl (λ '(features, prev_feat) layer,
             let next_feat := layer prev_feat in
             (features ++ [next_feat], next_feat))
          (features, prev_feat)
          (Py.slice_to (layers (net cnn)) (-2)) in
  features.

(** The features of [layers] applied in sequence from [prev_feat], by
    recursion on the layers; [extract_features_unfold] relates it to the
    loop above. *)
Fixpoint features_from (layers : list (tensor → tensor)) (prev_feat : tensor)
    : list tensor :=
  match layers with
  | [] => []
  | layer :: rest =>
      let next_feat := layer prev_feat in
      next_feat :: features_from rest next_feat
  end.

(** [tf.zeros(X.shape)] *)
Definition zeros_like (X : tensor) : tensor := lmap (lmap (lmap (lmap (λ _, 0%Q)))) X.

(** *** The test cells *)

Definition content_loss_test (c : cells) (model : SqueezeNet)
    (content_img_test : tensor) (correct : Q) : Py.result (list line) :=
  let content_layer := 2 in
  let content_weight := (6 # 100)%Q in
  c_feats ← Py.index (extract_features content_img_test model) content_layer;
  let bad_img := zeros_like content_img_test in
  feats ← Py.index (extract_features bad_img model) content_layer;
  let student_output := content_loss_fn c content_weight c_feats feats in
  error ← rel_error correct student_output;
  Py.Ok [MaximumErrorIs error].

Definition gram_matrix_test (c : cells) (model : SqueezeNet)
    (style_img_test : tensor) (correct : matrix) : Py.result (list line) :=
  feat ← Py.index (extract_features style_img_test model) 4;
  let gram := gram_matrix_fn c feat true in
  error ← rel_error_matrix correct gram;
  Py.Ok [MaximumErrorIs error].

(** [for idx in style_layers: style_targets.append(gram_matrix(feats[idx]))] *)
Fixpoint gram_targets (c : cells) (feats : list tensor) (style_layers : list nat)
    : Py.result (list (option matrix)) :=
  match style_layers with
  | [] => Py.Ok []
  | idx :: rest =>
      feat ← Py.index feats idx;
      targets ← gram_targets c feats rest;
      Py.Ok (gram_matrix_fn c feat true :: targets)
  end.

Definition style_loss_test (c : cells) (model : SqueezeNet)
    (content_img_test style_img_test : tensor) (correct : Q) : Py.result (list line) :=
  let style_layers := [0; 3; 5; 6] in
  let style_weights := [300000; 1000; 15; 3]%Q in
  let c_feats := extract_features content_img_test model in
  let feats := extract_features style_img_test model in
  style_targets ← gram_targets c feats style_layers;
  let s_loss := style_loss_fn c c_feats style_layers style_targets style_weights in
  error ← rel_error correct s_loss;
  Py.Ok [ErrorIs error].

Definition tv_loss_test (c : cells) (content_img_test : tensor) (correct : Q)
    : Py.result (list line) :=
  let tv_weight := (2 # 100)%Q in
  let t_loss := tv_loss_fn c content_img_test tv_weight in
  error ← rel_error correct t_loss;
  Py.Ok [ErrorIs error].

(** *** [style_transfer] *)

(** [tf.keras.optimizers.schedules.PiecewiseConstantDecay(boundaries, values)]
    called on [step]: [values[0]] up to and including [boundaries[0]], then
    [values[1]] up to and including [boundaries[1]], and so on. *)
Fixpoint piecewise_constant_decay (boundaries : list Z) (values : list Q)
    (step : Z) : Q :=
  match boundaries, values with
  | b :: bs, v :: vs =>
      if (step <=? b)%Z then v else piecewise_constant_decay bs vs step
  | [], v :: _ => v
  | _, [] => 0%Q (* not reached: Keras wants one value more than boundaries *)
  end.

(** What the [learning_rate] argument of a Keras optimizer can be: a number
    (or a tensor that holds one), used as it is at every step, or a
    schedule, called at every step on the optimizer's own step count. *)
Inductive learning_rate_arg : Type :=
| Constant (lr : Q)
| Schedule (f : Z → Q).

(** The optimization hyperparameters [style_transfer] sets. *)
Definition initial_lr : Q := 3%Q.
Definition decayed_lr : Q := (1 # 10)%Q.
Definition decay_lr_at : Z := 180%Z.
Definition max_iter : nat := 200.

Section Optimization.

(** TensorFlow's part: Adam's slot variables and update rule (learning
    rate, step count, slots, gradient, variable), the gradient the tape
    gives for a loss at a point, and the random initial image. *)
Variable slots : Type.
Variable adam_init : slots.
Variable adam_rule : Q → nat → slots → tensor → tensor → slots * tensor.
Variable tape_gradient : (tensor → Py.result Q) → tensor → tensor.
Variable random_uniform : tensor → tensor.

(** The optimizer object. [applied] is a ghost field: the learning rates
    the calls of [apply_gradients] have used, oldest first. *)
Record Adam : Type := {
  learning_rate : learning_rate_arg;
  iterations : nat;
  adam_slots : slots;
  applied : list Q
}.

Definition Adam_new (lr : learning_rate_arg) : Adam :=
  {| learning_rate := lr; iterations := 0; adam_slots := adam_init; applied := [] |}.

(** The learning rate the optimizer uses at its next step. *)
Definition current_lr (opt : Adam) : Q :=
  match learning_rate opt with
  | Constant lr => lr
  | Schedule f => f (Z.of_nat (iterations opt))
  end.

(** [optimizer.apply_gradients([(grad, var)])] *)
Definition apply_gradients (opt : Adam) (grad var : tensor) : Adam * tensor :=
  let lr := current_lr opt in
  let '(s, var) := adam_rule lr (iterations opt) (adam_slots opt) grad var in
  ({| learning_rate := learning_rate opt;
      iterations := S (iterations opt);
      adam_slots := s;
      applied := applied opt ++ [lr] |}, var).

(** [x + y] on what the loss cells return: [None + None] is a
    [TypeError], and TensorFlow refuses to add [None] to a number. *)
Definition add (x y : option Q) : Py.result Q :=
  match x, y with
  | Some a, Some b => Py.Ok (a + b)%Q
  | None, None => Py.Raise Py.TypeError
  | _, _ => Py.Raise Py.ValueError
  end.

Record state : Type := {
  step : Z;
  img_var : tensor;
  optimizer : Adam;
  printed : list line
}.

(** [for t in ts: body] *)
Fixpoint for_each (body : nat → state → Py.result state) (ts : list nat)
    (st : state) : Py.result state :=
  match ts with
  | [] => Py.Ok st
  | t :: ts' => st' ← body t st; for_each body ts' st'
  end.

Section Call.

(** The arguments of one call; [content_img] and [style_img] are the images
    [preprocess_image(load_image(...))] gives for the two file names, each
    in a batch of one ([content_img[None]], [style_img[None]]). *)
Variable c : cells.
Variable model : SqueezeNet.
Variable content_img style_img : tensor.
Variable content_layer : nat.
Variable content_weight : Q.
Variable style_layers : list nat.
Variable style_weights : list Q.
Variable tv_weight : Q.
Variable init_random : bool.

(** The loss computed under the tape, as a function of the image. *)
Definition loss_at (content_target : tensor) (style_targets : list (option matrix))
    (img : tensor) : Py.result Q :=
  let feats := extract_features img model in
  feat ← Py.index feats content_layer;
  let c_loss := content_loss_fn c content_weight feat content_target in
  let s_loss := style_loss_fn c feats style_layers style_targets style_weights in
  let t_loss := tv_loss_fn c img tv_weight in
  cs ← add c_loss s_loss;
  add (Some cs) t_loss.

(** One iteration of the loop. *)
Definition iteration (content_target : tensor) (style_targets : list (option matrix))
    (t : nat) (st : state) : Py.result state :=
  _ ← loss_at content_target style_targets (img_var st);
  let grad := tape_gradient (loss_at content_target style_targets) (img_var st) in
  let '(opt, img) := apply_gradients (optimizer st) grad (img_var st) in
  let img := clip_by_value img (- (3 # 2))%Q (3 # 2)%Q in
  let out :=
    if decide (t `mod` 100 = 0) then printed st ++ [Iteration t] else printed st in
  Py.Ok {| step := step st; img_var := img; optimizer := opt; printed := out |}.

(** The set-up of [style_transfer] before the loop. *)
Definition setup : Py.result (tensor * list (option matrix) * state) :=
  let feats := extract_features content_img model in
  content_target ← Py.index feats content_layer;
  let s_feats := extract_features style_img model in
  style_targets ← gram_targets c s_feats style_layers;
  let step := 0%Z in
  let boundaries := [decay_lr_at] in
  let values := [initial_lr; decayed_lr] in
  let learning_rate_fn := piecewise_constant_decay boundaries values in
  let learning_rate := learning_rate_fn step in
  let optimizer := Adam_new (Constant learning_rate) in
  let '(img, out) :=
    if init_random then (random_uniform content_img, [InitializingRandomly])
    else (content_img, [InitializingWithContentImage]) in
  Py.Ok (content_target, style_targets,
         {| step := step; img_var := img; optimizer := optimizer; printed := out |}).

(** The first [n] iterations of the loop, after the set-up. *)
Definition style_transfer_upto (n : nat) : Py.result state :=
  '(content_target, style_targets, st) ← setup;
  for_each (iteration content_target style_targets) (seq 0 n) st.

(** [style_transfer(...)]: the state when the function returns. *)
Definition style_transfer : Py.result state :=
  st ← style_transfer_upto max_iter;
  Py.Ok {| step := step st; img_var := img_var st; optimizer := optimizer st;
           printed := printed st ++ [Iteration (max_iter - 1)] |}.

End Call.
End Optimization.

Arguments learning_rate {slots} _.
Arguments iterations {slots} _.
Arguments adam_slots {slots} _.
Arguments applied {slots} _.
Arguments Adam_new {slots} adam_init lr.
Arguments current_lr {slots} opt.
Arguments apply_gradients {slots} adam_rule opt grad var.
Arguments step {slots} _.
Arguments img_var {slots} _.
Arguments optimizer {slots} _.
Arguments printed {slots} _.
Arguments for_each {slots} body ts st.
Arguments iteration {slots} adam_rule tape_gradient c model content_layer
  content_weight style_layers style_weights tv_weight content_target
  style_targets t st.
Arguments setup {slots} adam_init random_uniform c model content_img style_img
  content_layer style_layers init_random.
Arguments style_transfer_upto {slots} adam_init adam_rule tape_gradient
  random_uniform c model content_img style_img content_layer content_weight
  style_layers style_weights tv_weight init_random n.
Arguments style_transfer {slots} adam_init adam_rule tape_gradient
  random_uniform c model content_img style_img content_layer content_weight
  style_layers style_weights tv_weight init_random.

End StyleTransfer.

(** ** Notebook 1, continued: class visualization *)

Module ClassVisualization.
Import Tensor Model NetworkVisualization.

(** The exceptions the class visualization cell can raise. *)
Inductive exn : Type :=
| ZeroDivisionError
| ValueError
| KeyError
| IndexError.

Inductive result (A : Type) : Type :=
| Ok (a : A)
| Raise (e : exn).
Arguments Ok {A} a.
Arguments Raise {A} e.

Definition bind {A B : Type} (r : result A) (k : A → result B) : result B :=
  match r with
  | Ok a => k a
  | Raise e => Raise e
  end.

#[global] Instance result_ret : MRet result := @Ok.
#[global] Instance result_bind : MBind result := λ A B k r, bind r k.

(** [a % b] on Python integers: the result has the sign of [b], and a zero
    [b] is a [ZeroDivisionError]. *)
Definition py_mod (a b : Z) : result Z :=
  if decide (b = 0%Z) then Raise ZeroDivisionError else Ok (a `mod` b)%Z.

(** [X[0]] *)
Definition first {A : Type} (X : list A) : result A :=
  match X with
  | [] => Raise IndexError
  | x :: _ => Ok x
  end.

(** The keyword arguments of [create_class_visualization]; a missing key
    is [None], and [kwargs.pop(key, default)] then gives the default. *)
Record kwargs : Type := {
  l2_reg : option Q;
  learning_rate : option Q;
  num_iterations : option Z;
  blur_every : option Z;
  max_jitter : option Z;
  show_every : option Z
}.

Definition pop {A : Type} (value : option A) (default : A) : A :=
  match value with
  | Some v => v
  | None => default
  end.

(** [-SQUEEZENET_MEAN/SQUEEZENET_STD] and [(1.0 - SQUEEZENET_MEAN)/SQUEEZENET_STD],
    entry by entry (for non-zero entries of [SQUEEZENET_STD]). *)
Definition clip_lo (MEAN STD : list Q) : list Q :=
  zip_with (λ m s, ((- m) / s)%Q) MEAN STD.
Definition clip_hi (MEAN STD : list Q) : list Q :=
  zip_with (λ m s, ((1 - m) / s)%Q) MEAN STD.

(** [tf.clip_by_value(X, lo, hi)] with one bound per channel, for a tensor
    with as many channels as there are bounds. *)
Definition clip_by_channel (X : tensor) (lo hi : list Q) : tensor :=
  lmap (lmap (lmap (λ px,
    zip_with (λ x '(l, h), clip_entry l h x) px (zip lo hi)))) X.

Section Cell.

(** What the cell takes from elsewhere: scipy's filter (array, sigma,
    axis), the constants of [cs231n.image_utils], the keys of the
    dictionary [class_names], the preprocessed noise image, and the two
    offsets [np.random.randint] draws in iteration [t]. *)
Variable gaussian_filter1d : tensor → Q → nat → tensor.
Variable SQUEEZENET_MEAN SQUEEZENET_STD : list Q.
Variable class_names : gset Z.
Variable noise : list (list (list Q)).
Variable draws : Z → Z * Z.

(** [blur_image(X, sigma)] *)
Definition blur_image (X : tensor) (sigma : Q) : tensor :=
  let X := gaussian_filter1d X sigma 1 in
  let X := gaussian_filter1d X sigma 2 in
  X.

(** [np.random.randint(0, max_jitter, 2)] in iteration [t]: numpy refuses
    an empty range. *)
Definition randint (max_jitter t : Z) : result (Z * Z) :=
  if decide (max_jitter ≤ 0)%Z then Raise ValueError else Ok (draws t).

(** [class_names[target_y]] *)
Definition class_name (target_y : Z) : result Z :=
  if decide (target_y ∈ class_names) then Ok target_y else Raise KeyError.

(** One iteration of the loop; the body between the markers is [pass].
    The state is the image and the iteration numbers shown so far. *)
Definition iteration (target_y num_iterations blur_every max_jitter show_every : Z)
    (t : Z) (st : tensor * list Z) : result (tensor * list Z) :=
  let '(X, out) := st in
  '(ox, oy) ← randint max_jitter t;
  let X := jitter X ox oy in
  (* pass *)
  let X := jitter X (- ox) (- oy) in
  let X := clip_by_channel X (clip_lo SQUEEZENET_MEAN SQUEEZENET_STD)
                             (clip_hi SQUEEZENET_MEAN SQUEEZENET_STD) in
  r ← py_mod t blur_every;
  let X := if decide (r = 0%Z) then blur_image X (1 # 2)%Q else X in
  show ← (if decide (t = 0%Z) then Ok true
          else r ← py_mod (t + 1) show_every;
               if decide (r = 0%Z) then Ok true
               else Ok (bool_decide (t = num_iterations - 1)%Z));
  if show : bool then
    _ ← first X;
    _ ← class_name target_y;
    Ok (X, out ++ [(t + 1)%Z])
  else Ok (X, out).

(** [for t in ts: body] *)
Fixpoint for_each (body : Z → tensor * list Z → result (tensor * list Z))
    (ts : list Z) (st : tensor * list Z) : result (tensor * list Z) :=
  match ts with
  | [] => Ok st
  | t :: ts' => st' ← body t st; for_each body ts' st'
  end.

(** [create_class_visualization(target_y, model, **kwargs)]: the image
    returned, with the iteration numbers shown on the way. *)
Definition create_class_visualization (target_y : Z) (model : SqueezeNet)
    (kw : kwargs) : result (tensor * list Z) :=
  let l2_reg := pop (l2_reg kw) (1 # 1000)%Q in
  let learning_rate := pop (learning_rate kw) 25%Q in
  let num_iterations := pop (num_iterations kw) 100%Z in
  let blur_every := pop (blur_every kw) 10%Z in
  let max_jitter := pop (max_jitter kw) 16%Z in
  let show_every := pop (show_every kw) 25%Z in
  let X := [noise] in
  for_each (iteration target_y num_iterations blur_every max_jitter show_every)
           (seqZ 0 num_iterations) (X, []).

End Cell.

End ClassVisualization.

(** ** Notebook 1, continued: showing the saliency maps *)

Module ShowSaliency.
Import Tensor Model NetworkVisualization.

(** The exceptions the cell can raise. *)
Inductive exn : Type :=
| TypeError
| IndexError
| KeyError.

Inductive result (A : Type) : Type :=
| Ok (a : A)
| Raise (e : exn).
Arguments Ok {A} a.
Arguments Raise {A} e.

Definition bind {A B : Type} (r : result A) (k : A → result B) : result B :=
  match r with
  | Ok a => k a
  | Raise e => Raise e
  end.

#[global] Instance result_ret : MRet result := @Ok.
#[global] Instance result_bind : MBind result := λ A B k r, bind r k.





Section Cell.

(** The global names the function reads: the model and the keys of the
    dictionary [class_names]. *)
Variable model : SqueezeNet.
Variable class_names : gset Z.

(** [class_names[label]] *)
Definition class_name (label : Z) : result Z :=
  if decide (label ∈ class_names) then Ok label else Raise KeyError.




End Cell.

End ShowSaliency.

(** ** Concrete inputs used by the examples below *)

Module Examples.
Import Tensor Model NetworkVisualization StyleTransfer.

(** One image of two rows and three columns, one channel. *)
Definition X23 : tensor :=
  [[ [[1]; [2]; [3]];
     [[4]; [5]; [6]] ]]%Q.

(** A heap with one array, at location 1. *)
Definition heap1 : heap := {[ 1%positive := X23 ]}.

(** A model over seven classes that scores class 0 highest on every input
    (it has no layers). *)
Definition model_class0 : SqueezeNet := {|
  net := {| layers := [] |};
  call := λ _, [[5; 1; 0; 0; 0; 0; 2]%Q]
|}.

(** A model with nine layers, each the identity, so that
    [extract_features] gives seven feature maps. *)
Definition model9 : SqueezeNet := {|
  net := {| layers := replicate 9 id |};
  call := λ _, [[5; 1; 0; 0; 0; 0; 2]%Q]
|}.

(** The four cells completed, wrongly, with constants: every loss is 0 and
    every Gram matrix is the 1 by 1 matrix [[1]]. *)
Definition constant_cells : cells := {|
  content_loss_fn := λ _ _ _, Some 0%Q;
  gram_matrix_fn := λ _ _, Some [[1%Q]];
  style_loss_fn := λ _ _ _ _, Some 0%Q;
  tv_loss_fn := λ _ _, Some 0%Q
|}.

(** A stand-in for TensorFlow's part of the optimization: no slot
    variables, the update [var - lr * grad], and a tape whose gradient is 1
    at every entry. *)
Definition descent_rule (lr : Q) (iterations : nat) (s : unit) (grad var : tensor)
    : unit * tensor :=
  (s, zip_with (zip_with (zip_with (zip_with (λ v g, (v - lr * g)%Q)))) var grad).

Definition ones_gradient (loss : tensor → Py.result Q) (img : tensor) : tensor :=
  lmap (lmap (lmap (lmap (λ _, 1%Q)))) img.

(** A call of [style_transfer] on these stand-ins, stopped after [n]
    iterations, and the whole call. *)
Definition demo_upto (n : nat) : Py.result (state unit) :=
  style_transfer_upto tt descent_rule ones_gradient id
    constant_cells model9 X23 X23 2 (6 # 100)%Q [0; 3; 5; 6]
    [300000; 1000; 15; 3]%Q (2 # 100)%Q false n.

Definition demo : Py.result (state unit) :=
  style_transfer tt descent_rule ones_gradient id
    constant_cells model9 X23 X23 2 (6 # 100)%Q [0; 3; 5; 6]
    [300000; 1000; 15; 3]%Q (2 # 100)%Q false.

(** Stand-ins for what the class visualization cell takes from elsewhere:
    a 2 by 2 noise image with three channels, the mean and standard
    deviation of each channel, a dictionary with the keys 6 and 76, a filter
    that changes nothing, and offsets that are 1 and 1 in every iteration. *)
Definition noise3 : list (list (list Q)) :=
  [ [[1; 0; -1]; [2; 3; -2]];
    [[0; 0; 0]; [1; 1; 1]] ]%Q.

Definition MEAN3 : list Q := [485 # 1000; 456 # 1000; 406 # 1000]%Q.
Definition STD3 : list Q := [229 # 1000; 224 # 1000; 225 # 1000]%Q.

Definition names : gset Z := {[ 6%Z; 76%Z ]}.

Definition no_filter (X : tensor) (sigma : Q) (axis : nat) : tensor := X.

Definition draws11 (t : Z) : Z * Z := (1, 1)%Z.


Definition kwargs_none : ClassVisualization.kwargs := {|
  ClassVisualization.l2_reg := None;
  ClassVisualization.learning_rate := None;
  ClassVisualization.num_iterations := None;
  ClassVisualization.blur_every := None;
  ClassVisualization.max_jitter := None;
  ClassVisualization.show_every := None
|}.

(** The default arguments but for the number of iterations and one of the
    two periods. *)
Definition kwargs_blur_every (n b : Z) : ClassVisualization.kwargs := {|
  ClassVisualization.l2_reg := None;
  ClassVisualization.learning_rate := None;
  ClassVisualization.num_iterations := Some n;
  ClassVisualization.blur_every := Some b;
  ClassVisualization.max_jitter := None;
  ClassVisualization.show_every := None
|}.

Definition kwargs_show_every (n s : Z) : ClassVisualization.kwargs := {|
  ClassVisualization.l2_reg := None;
  ClassVisualization.learning_rate := None;
  ClassVisualization.num_iterations := Some n;
  ClassVisualization.blur_every := None;
  ClassVisualization.max_jitter := None;
  ClassVisualization.show_every := Some s
|}.

End Examples.

(** * Properties *)

(** ** Slices and rolls *)

Section Roll.
Context {A : Type}.
Implicit Types l : list A.

Lemma roll_0 l : Py.roll 0 l = l.
Proof.
  unfold Py.roll, Py.slice_from, Py.slice_to, Py.slice_bound. simpl.
  by rewrite drop_0, take_0, app_nil_r.
Qed.

(** Rolling right by [k] within the length: the last [k] elements come first. *)
Lemma roll_right l (k : Z) :
  (0 < k ≤ Z.of_nat (length l))%Z →
  Py.roll k l = drop (length l - Z.to_nat k) l ++ take (length l - Z.to_nat k) l.
Proof.
  intros Hk. unfold Py.roll, Py.slice_from, Py.slice_to, Py.slice_bound.
  destruct (Z.ltb_spec (- k) 0); [|lia].
  by replace (Z.to_nat (Z.of_nat (length l) + - k)) with (length l - Z.to_nat k) by lia.
Qed.

(** Rolling by [-k] within the length: the first [k] elements go last. *)
Lemma roll_left l (k : Z) :
  (0 < k ≤ Z.of_nat (length l))%Z →
  Py.roll (- k) l = drop (Z.to_nat k) l ++ take (Z.to_nat k) l.
Proof.
  intros Hk. unfold Py.roll, Py.slice_from, Py.slice_to, Py.slice_bound.
  rewrite Z.opp_involutive.
  destruct (Z.ltb_spec k 0); [lia|].
  by replace (Z.to_nat k `min` length l) with (Z.to_nat k) by lia.
Qed.

Lemma length_roll l (k : Z) : length (Py.roll k l) = length l.
Proof.
  unfold Py.roll, Py.slice_from, Py.slice_to.
  rewrite length_app, length_drop, length_take. lia.
Qed.

Lemma roll_undo l (k : Z) :
  (0 ≤ k ≤ Z.of_nat (length l))%Z → Py.roll (- k) (Py.roll k l) = l.
Proof.
  intros Hk. destruct (decide (k = 0%Z)) as [->|Hne].
  { simpl. by rewrite !roll_0. }
  rewrite roll_left by (rewrite length_roll; lia).
  rewrite roll_right by lia.
  set (m := length l - Z.to_nat k).
  assert (Hlen : length (drop m l) = Z.to_nat k)
    by (rewrite length_drop; unfold m; lia).
  rewrite drop_app_length', take_app_length' by done.
  apply take_drop.
Qed.

(** A roll is a circular shift: position [j] holds what was at
    [(j - k) mod len]. *)
Lemma lookup_roll l (k : Z) (j : nat) :
  (0 ≤ k < Z.of_nat (length l))%Z → j < length l →
  Py.roll k l !! j = l !! Z.to_nat ((Z.of_nat j - k) `mod` Z.of_nat (length l)).
Proof.
  intros Hk Hj. destruct (decide (k = 0%Z)) as [->|Hne].
  { rewrite roll_0, Z.sub_0_r, Z.mod_small by lia. by rewrite Nat2Z.id. }
  rewrite roll_right by lia.
  set (n := length l) in *.
  destruct (decide (j < Z.to_nat k)) as [Hlt|Hge].
  - rewrite lookup_app_l by (rewrite length_drop; fold n; lia).
    rewrite lookup_drop. f_equal.
    rewrite <- (Z_mod_plus_full _ 1), Z.mod_small by lia. lia.
  - rewrite lookup_app_r by (rewrite length_drop; fold n; lia).
    rewrite length_drop. fold n.
    rewrite lookup_take_lt by lia. f_equal.
    rewrite Z.mod_small by lia. lia.
Qed.

End Roll.

Lemma roll_fmap {A B : Type} (f : A → B) (k : Z) (l : list A) :
  f <$> Py.roll k l = Py.roll k (f <$> l).
Proof.
  unfold Py.roll, Py.slice_from, Py.slice_to.
  by rewrite fmap_app, fmap_drop, fmap_take, length_fmap.
Qed.

(** ** [jitter] *)

Section Jitter.
Import Tensor NetworkVisualization.
Context {A : Type}.
Implicit Types X : tensor4 A.

Lemma zip_with_fmap_same {B C D E : Type} (f : C → D → E) (g : B → C) (h : B → D)
    (l : list B) :
  zip_with f (g <$> l) (h <$> l) = (λ x, f (g x) (h x)) <$> l.
Proof. induction l as [|x l IH]; csimpl; [done|by rewrite IH]. Qed.

Lemma fmap_roll_0 {B : Type} (l : list (list B)) : Py.roll 0 <$> l = l.
Proof.
  induction l as [|x l IH]; csimpl; [done|]. by rewrite roll_0, IH.
Qed.

(** [jitter] rolls every row by [ox], then the rows of every image by [oy]. *)
Lemma jitter_rolls X (ox oy : Z) :
  jitter X ox oy = (λ img, Py.roll oy (Py.roll ox <$> img)) <$> X.
Proof.
  unfold jitter.
  assert (Hw : (if decide (ox ≠ 0%Z)
                then concat_w (slice_w_from X (- ox)) (slice_w_to X (- ox))
                else X) = lmap (lmap (Py.roll ox)) X).
  { case_decide as Hox.
    - unfold concat_w, slice_w_from, slice_w_to.
      rewrite zip_with_fmap_same. apply list_fmap_ext; intros _ img _.
      simpl. by rewrite zip_with_fmap_same.
    - subst ox.
      induction X as [|img X' IH]; csimpl; [done|].
      by rewrite fmap_roll_0, <- IH. }
  rewrite Hw. clear Hw.
  case_decide as Hoy.
  - unfold concat_h, slice_h_from, slice_h_to.
    rewrite zip_with_fmap_same, <- list_fmap_compose. done.
  - subst oy.
    apply list_fmap_ext; intros _ img _. by rewrite roll_0.
Qed.

Lemma Forall_roll {B : Type} (P : B → Prop) (k : Z) (l : list B) :
  Forall P l → Forall P (Py.roll k l).
Proof.
  intros Hl. unfold Py.roll, Py.slice_from, Py.slice_to.
  apply Forall_app; split; [by apply Forall_drop|by apply Forall_take].
Qed.

Lemma jitter_shape X N H W C (ox oy : Z) :
  has_shape X N H W C → has_shape (jitter X ox oy) N H W C.
Proof.
  intros [HN HX]. rewrite jitter_rolls. split; [by rewrite length_fmap|].
  apply Forall_fmap. eapply Forall_impl; [exact HX|].
  intros img [HH Himg]; simpl. split.
  - by rewrite length_roll, length_fmap.
  - apply Forall_roll, Forall_fmap. eapply Forall_impl; [exact Himg|].
    intros row [HW Hrow]; simpl. split; [by rewrite length_roll|].
    by apply Forall_roll.
Qed.

Lemma jitter_pixel X N H W C (ox oy : Z) (n i j : nat) :
  has_shape X N H W C →
  (0 ≤ ox < Z.of_nat W)%Z → (0 ≤ oy < Z.of_nat H)%Z →
  n < N → i < H → j < W →
  pixel (jitter X ox oy) n i j =
  pixel X n (Z.to_nat ((Z.of_nat i - oy) `mod` Z.of_nat H))
            (Z.to_nat ((Z.of_nat j - ox) `mod` Z.of_nat W)).
Proof.
  intros [HN HX] Hox Hoy Hn Hi Hj. rewrite jitter_rolls. unfold pixel.
  rewrite list_lookup_fmap.
  destruct (lookup_lt_is_Some_2 X n) as [img Himg]; [lia|].
  rewrite Himg; simpl.
  rewrite Forall_lookup in HX. destruct (HX _ _ Himg) as [HH Hrows].
  rewrite lookup_roll by (rewrite length_fmap; lia).
  rewrite length_fmap, HH, list_lookup_fmap.
  set (i' := Z.to_nat ((Z.of_nat i - oy) `mod` Z.of_nat H)).
  assert (Hi' : i' < H).
  { unfold i'. pose proof (Z.mod_pos_bound (Z.of_nat i - oy) (Z.of_nat H)). lia. }
  destruct (lookup_lt_is_Some_2 img i') as [row Hrow]; [lia|].
  rewrite Hrow; simpl.
  rewrite Forall_lookup in Hrows. destruct (Hrows _ _ Hrow) as [HW _].
  rewrite lookup_roll by lia. by rewrite HW.
Qed.

Lemma jitter_undo X N H W C (ox oy : Z) :
  has_shape X N H W C →
  (0 ≤ ox ≤ Z.of_nat W)%Z → (0 ≤ oy ≤ Z.of_nat H)%Z →
  jitter (jitter X ox oy) (- ox) (- oy) = X.
Proof.
  intros [HN HX] Hox Hoy. rewrite !jitter_rolls, <- list_fmap_compose.
  transitivity (id <$> X); [|apply list_fmap_id].
  apply Forall_fmap_ext. eapply Forall_impl; [exact HX|].
  intros img [HH Hrows]; simpl.
  rewrite <- roll_fmap, roll_undo by (rewrite length_fmap; lia).
  rewrite <- list_fmap_compose.
  transitivity (id <$> img); [|apply list_fmap_id].
  apply Forall_fmap_ext. eapply Forall_impl; [exact Hrows|].
  intros row [HW _]; simpl. apply roll_undo. lia.
Qed.

Lemma jitter_0 X : jitter X 0 0 = X.
Proof. unfold jitter. by rewrite !decide_False by (intros ?; done). Qed.

(** In [create_class_visualization] the image has shape (1, 224, 224, 3)
    and the offsets are drawn from [0, max_jitter); with the default
    [max_jitter = 16] (with any [max_jitter <= 224]) the line
    'Undo the jitter' restores the image that was jittered. *)
Lemma class_visualization_jitter_undone X (max_jitter ox oy : Z) :
  has_shape X 1 224 224 3 →
  (max_jitter ≤ 224)%Z → (0 ≤ ox < max_jitter)%Z → (0 ≤ oy < max_jitter)%Z →
  jitter (jitter X ox oy) (- ox) (- oy) = X.
Proof. intros HX Hm Hox Hoy. eapply jitter_undo; [exact HX|lia|lia]. Qed.

End Jitter.

Example jitter_X23_right_1 :
  NetworkVisualization.jitter Examples.X23 1 0
  = [[ [[3]; [1]; [2]]; [[6]; [4]; [5]] ]]%Q.
Proof. reflexivity. Qed.

Example jitter_X23_right_1_down_1 :
  NetworkVisualization.jitter Examples.X23 1 1
  = [[ [[6]; [4]; [5]]; [[3]; [1]; [2]] ]]%Q.
Proof. reflexivity. Qed.

(** C7. For every tensor [X] of shape (N, H, W, C) and all offsets
    [0 <= ox < W] and [0 <= oy < H]: [jitter(X, ox, oy)] has the shape of
    [X] and is a circular shift of [X] along the width and height axes (its
    pixel at row [i], column [j] is the pixel of [X] at row
    [(i - oy) mod H], column [(j - ox) mod W]); the jitter is exactly
    undone, [jitter(jitter(X, ox, oy), -ox, -oy) = X]; and
    [jitter(X, 0, 0) = X]. *)
Theorem jitter_circular_shift_undone {A : Type} (X : Tensor.tensor4 A)
    (N H W C : nat) (ox oy : Z) :
  Tensor.has_shape X N H W C →
  (0 ≤ ox < Z.of_nat W)%Z → (0 ≤ oy < Z.of_nat H)%Z →
  Tensor.has_shape (NetworkVisualization.jitter X ox oy) N H W C
  ∧ (∀ n i j : nat, n < N → i < H → j < W →
       Tensor.pixel (NetworkVisualization.jitter X ox oy) n i j =
       Tensor.pixel X n (Z.to_nat ((Z.of_nat i - oy) `mod` Z.of_nat H))
                        (Z.to_nat ((Z.of_nat j - ox) `mod` Z.of_nat W)))
  ∧ NetworkVisualization.jitter (NetworkVisualization.jitter X ox oy) (- ox) (- oy) = X
  ∧ NetworkVisualization.jitter X 0 0 = X.
Proof.
  intros HX Hox Hoy. split_and!.
  - by apply jitter_shape.
  - intros n i j Hn Hi Hj. by eapply jitter_pixel.
  - eapply jitter_undo; [exact HX|lia|lia].
  - apply jitter_0.
Qed.

Lemma jitter_circular_shift_undone_witness :
  Tensor.has_shape (NetworkVisualization.jitter Examples.X23 1 1) 1 2 3 1
  ∧ (∀ n i j : nat, n < 1 → i < 2 → j < 3 →
       Tensor.pixel (NetworkVisualization.jitter Examples.X23 1 1) n i j =
       Tensor.pixel Examples.X23 n (Z.to_nat ((Z.of_nat i - 1) `mod` 2))
                                   (Z.to_nat ((Z.of_nat j - 1) `mod` 3)))
  ∧ NetworkVisualization.jitter (NetworkVisualization.jitter Examples.X23 1 1) (- 1) (- 1)
    = Examples.X23
  ∧ NetworkVisualization.jitter Examples.X23 0 0 = Examples.X23.
Proof.
  apply (jitter_circular_shift_undone Examples.X23 1 2 3 1 1 1).
  - split; [reflexivity|]. repeat constructor.
  - lia.
  - lia.
Defined.

(** ** [extract_features] *)

Section ExtractFeatures.
Import Tensor Model StyleTransfer.

Lemma slice_to_minus_2 {B : Type} (l : list B) :
  Py.slice_to l (-2) = take (length l - 2) l.
Proof.
  unfold Py.slice_to, Py.slice_bound. simpl.
  by replace (Z.to_nat (Z.of_nat (length l) + -2)) with (length l - 2) by lia.
Qed.

Lemma extract_loop_unfold (ls : list (tensor → tensor)) (acc : list tensor)
    (prev : tensor) :
  (foldl (λ '(features, prev_feat) layer,
            let next_feat := layer prev_feat in
            (features ++ [next_feat], next_feat))
         (acc, prev) ls).1
  = acc ++ features_from ls prev.
Proof.
  revert acc prev. induction ls as [|l ls IH]; intros acc prev; simpl.
  - by rewrite app_nil_r.
  - rewrite IH, <- app_assoc. done.
Qed.

Lemma extract_features_unfold (x : tensor) (cnn : SqueezeNet) :
  extract_features x cnn
  = features_from (take (length (layers (net cnn)) - 2) (layers (net cnn))) x.
Proof.
  unfold extract_features. rewrite slice_to_minus_2.
  pose proof (extract_loop_unfold
    (take (length (layers (net cnn)) - 2) (layers (net cnn))) [] x) as H.
  simpl in H. rewrite <- H. by destruct (foldl _ _ _).
Qed.

Lemma length_features_from (ls : list (tensor → tensor)) (x : tensor) :
  length (features_from ls x) = length ls.
Proof. revert x. induction ls as [|l ls IH]; intros x; simpl; [done|by rewrite IH]. Qed.

Lemma features_from_succ (ls : list (tensor → tensor)) (x prev : tensor)
    (i : nat) (layer : tensor → tensor) :
  ls !! S i = Some layer →
  features_from ls x !! i = Some prev →
  features_from ls x !! S i = Some (layer prev).
Proof.
  revert x i. induction ls as [|l ls IH]; intros x i Hl Hprev; [done|].
  simpl in *. destruct i as [|i].
  - destruct ls as [|l' ls]; simplify_eq/=. done.
  - by apply IH.
Qed.

End ExtractFeatures.

Example extract_features_model9 :
  StyleTransfer.extract_features Examples.X23 Examples.model9
  = replicate 7 Examples.X23.
Proof. reflexivity. Qed.

Example extract_features_no_layers :
  StyleTransfer.extract_features Examples.X23 Examples.model_class0 = [].
Proof. reflexivity. Qed.

(** C9. For every input [x], [extract_features(x, cnn)] has one entry per
    layer of [cnn.net.layers] except the last two; entry 0 is the first
    layer applied to [x] (the input itself is not an entry), and every
    later entry [i + 1] is layer [i + 1] applied to entry [i]. *)
Theorem extract_features_sequential (x : Tensor.tensor) (cnn : Model.SqueezeNet) :
  length (StyleTransfer.extract_features x cnn)
    = length (Model.layers (Model.net cnn)) - 2
  ∧ (∀ layer, 0 < length (Model.layers (Model.net cnn)) - 2 →
       Model.layers (Model.net cnn) !! 0 = Some layer →
       StyleTransfer.extract_features x cnn !! 0 = Some (layer x))
  ∧ (∀ i layer prev, S i < length (Model.layers (Model.net cnn)) - 2 →
       Model.layers (Model.net cnn) !! S i = Some layer →
       StyleTransfer.extract_features x cnn !! i = Some prev →
       StyleTransfer.extract_features x cnn !! S i = Some (layer prev)).
Proof.
  rewrite extract_features_unfold.
  set (L := Model.layers (Model.net cnn)). split_and!.
  - rewrite length_features_from, length_take. lia.
  - intros layer Hlen Hl.
    destruct L as [|l0 [|l1 [|l2 L]]]; simpl in *; try lia.
    by simplify_eq.
  - intros i layer prev Hi Hl Hprev.
    apply features_from_succ; [|done].
    by rewrite lookup_take_lt.
Qed.

(** ** Saliency maps and fooling images *)

Section Fooling.
Import Tensor Model NetworkVisualization.

Lemma ndarray_copy_fresh (h : heap) (X : loc) : (ndarray_copy h X).2 ∉ dom h.
Proof. unfold ndarray_copy; simpl. apply is_fresh. Qed.

Lemma ndarray_copy_contents (h : heap) (X : loc) :
  (ndarray_copy h X).1 !!! (ndarray_copy h X).2 = h !!! X.
Proof. unfold ndarray_copy; simpl. apply lookup_total_insert_eq. Qed.

Lemma ndarray_copy_frame (h : heap) (X l : loc) :
  l ∈ dom h → (ndarray_copy h X).1 !! l = h !! l.
Proof.
  intros Hl. unfold ndarray_copy; simpl. apply lookup_insert_ne.
  intros <-. by apply (is_fresh (dom h)).
Qed.

Lemma make_fooling_image_copy (h : heap) (X : loc) (target_y : Z) (model : SqueezeNet) :
  make_fooling_image h X target_y model = ndarray_copy h X.
Proof. unfold make_fooling_image. by destruct (ndarray_copy h X). Qed.

Lemma fooling_cell_unfold (h : heap) (Xi : loc) (model : SqueezeNet) :
  fooling_cell h Xi model =
  c ← predicted_class model (h !!! Xi);
  if decide (Z.of_nat c = 6%Z) then Py.Ok (ndarray_copy h Xi)
  else Py.Raise Py.AssertionError.
Proof.
  unfold fooling_cell. rewrite make_fooling_image_copy.
  pose proof (ndarray_copy_contents h Xi) as Hc.
  destruct (ndarray_copy h Xi) as [h' Xf]; simpl in *. by rewrite Hc.
Qed.

End Fooling.

(** C1. [compute_saliency_maps(X, y, model)] returns [None] for every
    input: it never returns an array, of the documented shape (N, H, W) or
    of any other. *)
Theorem compute_saliency_maps_returns_None (X : Tensor.tensor) (y : list Z)
    (model : Model.SqueezeNet) :
  NetworkVisualization.compute_saliency_maps X y model = None.
Proof. reflexivity. Qed.

(** C2. [make_fooling_image] returns a copy of its input without a single
    update step, so the cell's check passes only for an image the model
    already puts in class 6: whenever the model predicts another class for
    the input image, the assertion ('The network is not fooled!') fails. *)
Theorem fooling_cell_not_fooled (h : NetworkVisualization.heap)
    (Xi : NetworkVisualization.loc) (model : Model.SqueezeNet) (c : nat) :
  NetworkVisualization.predicted_class model (h !!! Xi) = Py.Ok c →
  Z.of_nat c ≠ 6%Z →
  (let r := NetworkVisualization.make_fooling_image h Xi 6 model in
   r.1 !!! r.2 = h !!! Xi)
  ∧ NetworkVisualization.fooling_cell h Xi model = Py.Raise Py.AssertionError.
Proof.
  intros Hc Hne. split.
  - cbv zeta. rewrite make_fooling_image_copy. apply ndarray_copy_contents.
  - rewrite fooling_cell_unfold, Hc; simpl. by rewrite decide_False.
Qed.

Lemma fooling_cell_not_fooled_witness :
  (let r := NetworkVisualization.make_fooling_image Examples.heap1 1%positive 6 Examples.model_class0 in
   r.1 !!! r.2 = Examples.heap1 !!! 1%positive)
  ∧ NetworkVisualization.fooling_cell Examples.heap1 1%positive Examples.model_class0
    = Py.Raise Py.AssertionError.
Proof.
  apply (fooling_cell_not_fooled Examples.heap1 1%positive Examples.model_class0 0).
  - reflexivity.
  - simpl. lia.
Defined.

(** C10. [make_fooling_image] leaves its argument unchanged: the array it
    returns is a new one, and [X] (like every other array of the heap)
    holds after the call what it held before. *)
Theorem make_fooling_image_leaves_X_unchanged (h : NetworkVisualization.heap)
    (X : NetworkVisualization.loc) (target_y : Z) (model : Model.SqueezeNet) :
  X ∈ dom h →
  (NetworkVisualization.make_fooling_image h X target_y model).1 !! X = h !! X
  ∧ (NetworkVisualization.make_fooling_image h X target_y model).2 ≠ X
  ∧ (NetworkVisualization.make_fooling_image h X target_y model).1
      !!! (NetworkVisualization.make_fooling_image h X target_y model).2 = h !!! X
  ∧ (∀ l, l ∈ dom h →
       (NetworkVisualization.make_fooling_image h X target_y model).1 !! l = h !! l).
Proof.
  intros HX. rewrite make_fooling_image_copy. split_and!.
  - by apply ndarray_copy_frame.
  - intros Heq. apply (ndarray_copy_fresh h X). by rewrite Heq.
  - apply ndarray_copy_contents.
  - intros l Hl. by apply ndarray_copy_frame.
Qed.

Lemma make_fooling_image_leaves_X_unchanged_witness :
  (NetworkVisualization.make_fooling_image Examples.heap1 1%positive 6 Examples.model_class0).1
     !! 1%positive = Examples.heap1 !! 1%positive
  ∧ (NetworkVisualization.make_fooling_image Examples.heap1 1%positive 6 Examples.model_class0).2
     ≠ 1%positive
  ∧ (NetworkVisualization.make_fooling_image Examples.heap1 1%positive 6 Examples.model_class0).1
      !!! (NetworkVisualization.make_fooling_image Examples.heap1 1%positive 6
             Examples.model_class0).2 = Examples.heap1 !!! 1%positive
  ∧ (∀ l, l ∈ dom Examples.heap1 →
       (NetworkVisualization.make_fooling_image Examples.heap1 1%positive 6 Examples.model_class0).1
         !! l = Examples.heap1 !! l).
Proof.
  apply (make_fooling_image_leaves_X_unchanged Examples.heap1 1%positive 6 Examples.model_class0).
  apply elem_of_dom. exists Examples.X23. apply lookup_singleton_eq.
Defined.

(** ** The loss cells and their checks *)

Section LossChecks.
Import Tensor Model StyleTransfer.

Lemma bind_raised {B C : Type} (r : Py.result B) (k : B → Py.result C) :
  (∀ b, Py.raised (k b) = true) → Py.raised (r ≫= k) = true.
Proof. intros Hk. destruct r as [b|e]; simpl; [apply Hk|done]. Qed.

End LossChecks.

(** With the cells as they stand, the content loss check stops with a
    [TypeError]. *)
Example content_loss_test_as_it_stands :
  StyleTransfer.content_loss_test StyleTransfer.notebook_cells Examples.model9
    Examples.X23 1%Q = Py.Raise Py.TypeError.
Proof. reflexivity. Qed.

(** C3. [gram_matrix] returns [None] for every feature tensor, normalized
    or not: it never returns a (C, C) matrix. Its check, [gram_matrix_test],
    therefore never prints an error below 1e-3: it raises, for every model,
    style image and reference matrix. *)
Theorem gram_matrix_returns_None (features : Tensor.tensor) (normalize : bool)
    (model : Model.SqueezeNet) (style_img_test : Tensor.tensor)
    (correct : Tensor.matrix) :
  StyleTransfer.gram_matrix features normalize = None
  ∧ Py.raised (StyleTransfer.gram_matrix_test StyleTransfer.notebook_cells
                 model style_img_test correct) = true.
Proof.
  split; [reflexivity|].
  unfold StyleTransfer.gram_matrix_test. apply bind_raised. intros feat. done.
Qed.

(** C4. [tv_loss] returns [None] for every image and weight: it never
    returns the weighted sum of squared differences of adjacent pixels. Its
    check, [tv_loss_test], raises a [TypeError] for every image and
    reference value. *)
Theorem tv_loss_returns_None (img : Tensor.tensor) (tv_weight : Q)
    (content_img_test : Tensor.tensor) (correct : Q) :
  StyleTransfer.tv_loss img tv_weight = None
  ∧ StyleTransfer.tv_loss_test StyleTransfer.notebook_cells content_img_test correct
    = Py.Raise Py.TypeError.
Proof. split; reflexivity. Qed.

(** C6 does not hold as stated: with the content loss cell completed
    wrongly (it returns 0 where the reference value is 1), the relative
    error is 1, far above the tolerance 1e-8, and [content_loss_test]
    prints it and returns normally. *)
Lemma content_loss_test_wrong_loss_no_error :
  StyleTransfer.content_loss_fn Examples.constant_cells (6 # 100)%Q
    Examples.X23 Examples.X23 = Some 0%Q
  ∧ ((1 # 100000000) < StyleTransfer.rel_error_entry 1 0)%Q
  ∧ StyleTransfer.content_loss_test Examples.constant_cells Examples.model9
      Examples.X23 1%Q
    = Py.Ok [StyleTransfer.MaximumErrorIs (StyleTransfer.rel_error_entry 1 0)].
Proof. split_and!; reflexivity. Qed.

(** The other three checks on the same wrong cells: each prints a large
    error and returns. *)
Example gram_matrix_test_wrong_matrix :
  StyleTransfer.gram_matrix_test Examples.constant_cells Examples.model9
    Examples.X23 [[2%Q]]
  = Py.Ok [StyleTransfer.MaximumErrorIs (StyleTransfer.rel_error_entry 2 1)].
Proof. reflexivity. Qed.

Example style_loss_test_wrong_loss :
  StyleTransfer.style_loss_test Examples.constant_cells Examples.model9
    Examples.X23 Examples.X23 1%Q
  = Py.Ok [StyleTransfer.ErrorIs (StyleTransfer.rel_error_entry 1 0)].
Proof. reflexivity. Qed.

Example tv_loss_test_wrong_loss :
  StyleTransfer.tv_loss_test Examples.constant_cells Examples.X23 1%Q
  = Py.Ok [StyleTransfer.ErrorIs (StyleTransfer.rel_error_entry 1 0)].
Proof. reflexivity. Qed.

(** C6, amended. The checks of the content loss, the Gram matrix, the style
    loss and the total-variation loss compute the relative error against
    the reference and print it; none of them compares it with a tolerance.
    Whenever the checked cell returns a number (for the Gram matrix: a
    non-empty matrix of the reference's shape), the check returns normally,
    whatever the error. Only the fooling-image cell asserts: it raises an
    [AssertionError] exactly when the predicted class is not the target. *)
Theorem loss_checks_print_only (c : StyleTransfer.cells) (model : Model.SqueezeNet)
    (content_img_test style_img_test : Tensor.tensor) (cl_out sl_out tv_out : Q)
    (gm_out : Tensor.matrix) :
  (∀ c_feats feats v,
     Py.index (StyleTransfer.extract_features content_img_test model) 2 = Py.Ok c_feats →
     Py.index (StyleTransfer.extract_features
                 (StyleTransfer.zeros_like content_img_test) model) 2 = Py.Ok feats →
     StyleTransfer.content_loss_fn c (6 # 100)%Q c_feats feats = Some v →
     StyleTransfer.content_loss_test c model content_img_test cl_out
     = Py.Ok [StyleTransfer.MaximumErrorIs (StyleTransfer.rel_error_entry cl_out v)])
  ∧ (∀ feat gram e,
     Py.index (StyleTransfer.extract_features style_img_test model) 4 = Py.Ok feat →
     StyleTransfer.gram_matrix_fn c feat true = Some gram →
     length <$> gm_out = length <$> gram →
     StyleTransfer.np_max
       (concat (zip_with (zip_with StyleTransfer.rel_error_entry) gm_out gram)) = Py.Ok e →
     StyleTransfer.gram_matrix_test c model style_img_test gm_out
     = Py.Ok [StyleTransfer.MaximumErrorIs e])
  ∧ (∀ targets v,
     StyleTransfer.gram_targets c
       (StyleTransfer.extract_features style_img_test model) [0; 3; 5; 6] = Py.Ok targets →
     StyleTransfer.style_loss_fn c
       (StyleTransfer.extract_features content_img_test model) [0; 3; 5; 6] targets
       [300000; 1000; 15; 3]%Q = Some v →
     StyleTransfer.style_loss_test c model content_img_test style_img_test sl_out
     = Py.Ok [StyleTransfer.ErrorIs (StyleTransfer.rel_error_entry sl_out v)])
  ∧ (∀ v,
     StyleTransfer.tv_loss_fn c content_img_test (2 # 100)%Q = Some v →
     StyleTransfer.tv_loss_test c content_img_test tv_out
     = Py.Ok [StyleTransfer.ErrorIs (StyleTransfer.rel_error_entry tv_out v)])
  ∧ (∀ h Xi k,
     NetworkVisualization.predicted_class model (h !!! Xi) = Py.Ok k →
     (NetworkVisualization.fooling_cell h Xi model = Py.Raise Py.AssertionError
      ↔ Z.of_nat k ≠ 6%Z)).
Proof.
  split_and!.
  - intros c_feats feats v Hc Hf Hv.
    unfold StyleTransfer.content_loss_test. rewrite Hc; simpl. rewrite Hf; simpl.
    by rewrite Hv.
  - intros feat gram e Hf Hg Hshape He.
    unfold StyleTransfer.gram_matrix_test. rewrite Hf; simpl. rewrite Hg; simpl.
    rewrite decide_True by done. by rewrite He.
  - intros targets v Ht Hv.
    unfold StyleTransfer.style_loss_test. rewrite Ht; simpl. by rewrite Hv.
  - intros v Hv. unfold StyleTransfer.tv_loss_test. by rewrite Hv.
  - intros h Xi k Hk. rewrite fooling_cell_unfold, Hk; simpl.
    case_decide; split; intros; done.
Qed.


(** ** The optimization loop of [style_transfer] *)

Section Clip.
Import Tensor.

Lemma clip_entry_in_range (lo hi x : Q) :
  (lo <= hi)%Q → in_range lo hi (clip_entry lo hi x).
Proof.
  intros Hle. unfold in_range, clip_entry. split.
  - apply Q.le_max_r.
  - apply Q.max_lub; [apply Q.le_min_r|exact Hle].
Qed.

Lemma clip_by_value_in_range (X : tensor) (lo hi : Q) :
  (lo <= hi)%Q → all_entries (in_range lo hi) (clip_by_value X lo hi).
Proof.
  intros Hle. unfold all_entries, clip_by_value.
  do 4 (apply Forall_fmap, Forall_true; intros ?).
  by apply clip_entry_in_range.
Qed.

End Clip.

Section Loop.
Import Tensor Model StyleTransfer.

Context {slots : Type}.
Context (adam_init : slots)
        (adam_rule : Q → nat → slots → tensor → tensor → slots * tensor)
        (tape_gradient : (tensor → Py.result Q) → tensor → tensor)
        (random_uniform : tensor → tensor).
Context (c : cells) (model : SqueezeNet) (content_img style_img : tensor)
        (content_layer : nat) (content_weight : Q) (style_layers : list nat)
        (style_weights : list Q) (tv_weight : Q) (init_random : bool).

Local Abbreviation loss := (loss_at c model content_layer content_weight
                          style_layers style_weights tv_weight).
Local Abbreviation body := (iteration adam_rule tape_gradient c model content_layer
                          content_weight style_layers style_weights tv_weight).
Local Abbreviation start := (setup adam_init random_uniform c model content_img
                           style_img content_layer style_layers init_random).
Local Abbreviation upto := (style_transfer_upto adam_init adam_rule tape_gradient
                          random_uniform c model content_img style_img
                          content_layer content_weight style_layers
                          style_weights tv_weight init_random).

Lemma for_each_snoc (f : nat → state slots → Py.result (state slots))
    (ts : list nat) (t : nat) (st : state slots) :
  for_each f (ts ++ [t]) st = (st' ← for_each f ts st; f t st').
Proof.
  revert st. induction ts as [|t0 ts IH]; intros st; simpl.
  - by destruct (f t st).
  - destruct (f t0 st) as [st0|e]; simpl; [apply IH|done].
Qed.

(** What one iteration that does not raise leaves behind. *)
Lemma iteration_Ok ct tg (t : nat) (st st' : state slots) :
  body ct tg t st = Py.Ok st' →
  all_entries (in_range (- (3 # 2)) (3 # 2)) (img_var st')
  ∧ learning_rate (optimizer st') = learning_rate (optimizer st)
  ∧ applied (optimizer st') = applied (optimizer st) ++ [current_lr (optimizer st)]
  ∧ step st' = step st.
Proof.
  unfold iteration. destruct (loss ct tg (img_var st)) as [l|e]; simpl; [|done].
  unfold apply_gradients.
  destruct (adam_rule _ _ _ _ _) as [s var]. intros [= <-]; simpl.
  split_and!; try done. by apply clip_by_value_in_range.
Qed.


(** With a constant learning rate argument, every iteration applies it. *)
Lemma for_each_applied ct tg (ts : list nat) (st st' : state slots) (lr : Q) :
  learning_rate (optimizer st) = Constant lr →
  for_each (body ct tg) ts st = Py.Ok st' →
  learning_rate (optimizer st') = Constant lr
  ∧ applied (optimizer st') = applied (optimizer st) ++ replicate (length ts) lr
  ∧ step st' = step st.
Proof.
  revert st. induction ts as [|t ts IH]; intros st Hlr Hrun; simpl in *.
  - injection Hrun as <-. by rewrite app_nil_r.
  - destruct (body ct tg t st) as [st1|e] eqn:Hbody; simpl in Hrun; [|done].
    apply iteration_Ok in Hbody as (_ & Hlr1 & Happ1 & Hstep1).
    rewrite Hlr in Hlr1.
    destruct (IH st1 Hlr1 Hrun) as (Hlr' & Happ' & Hstep').
    split_and!; [done| |congruence].
    rewrite Happ', Happ1, <- app_assoc. simpl.
    unfold current_lr. by rewrite Hlr.
Qed.

(** The set-up evaluates the schedule once, at step 0, and hands the
    resulting number to the optimizer. *)
Lemma setup_Ok ct tg (st : state slots) :
  start = Py.Ok (ct, tg, st) →
  learning_rate (optimizer st) = Constant initial_lr
  ∧ applied (optimizer st) = []
  ∧ step st = 0%Z.
Proof.
  unfold setup.
  destruct (Py.index _ _) as [ct'|e]; simpl; [|done].
  destruct (gram_targets _ _ _) as [tg'|e]; simpl; [|done].
  destruct init_random; intros [= <- <- <-]; done.
Qed.

Lemma upto_applied (n : nat) (st : state slots) :
  upto n = Py.Ok st →
  applied (optimizer st) = replicate n initial_lr ∧ step st = 0%Z.
Proof.
  unfold style_transfer_upto.
  destruct start as [[[ct tg] st0]|e] eqn:Hsetup; simpl; [|done].
  intros Hrun. apply setup_Ok in Hsetup as (Hlr & Happ & Hstep).
  destruct (for_each_applied _ _ _ _ _ _ Hlr Hrun) as (_ & Happ' & Hstep').
  rewrite Happ', Happ, length_seq. split; [done|congruence].
Qed.

Lemma upto_in_range (t : nat) (st : state slots) :
  upto (S t) = Py.Ok st →
  all_entries (in_range (- (3 # 2)) (3 # 2)) (img_var st).
Proof.
  unfold style_transfer_upto. rewrite seq_S.
  destruct start as [[[ct tg] st0]|e]; simpl; [|done].
  rewrite for_each_snoc. simpl.
  destruct (for_each _ _ _) as [st1|e]; simpl; [|done].
  intros Hbody. by apply iteration_Ok in Hbody as (Hrange & _).
Qed.

End Loop.

Section AsItStands.
Import Tensor Model StyleTransfer.

(** The schedule [style_transfer] builds: 3.0 up to step 180, 0.1 after. *)
Lemma learning_rate_fn_values (step : Z) :
  piecewise_constant_decay [decay_lr_at] [initial_lr; decayed_lr] step
  = if (step <=? 180)%Z then 3%Q else (1 # 10)%Q.
Proof. reflexivity. Qed.

Lemma raised_bind_l {B C : Type} (r : Py.result B) (k : B → Py.result C) :
  Py.raised r = true → Py.raised (r ≫= k) = true.
Proof. by destruct r. Qed.

(** With the four loss cells as they stand, every call of [style_transfer]
    raises before its first clip step: the set-up fails on a layer index,
    or the first iteration adds [None] to [None]. *)
Lemma style_transfer_as_it_stands_raises {slots : Type} (adam_init : slots)
    adam_rule tape_gradient random_uniform model content_img style_img
    content_layer content_weight style_layers style_weights tv_weight init_random :
  Py.raised (style_transfer adam_init adam_rule tape_gradient random_uniform
               notebook_cells model content_img style_img content_layer
               content_weight style_layers style_weights tv_weight init_random)
  = true.
Proof.
  unfold style_transfer. apply raised_bind_l.
  unfold style_transfer_upto. apply bind_raised. intros [[ct tg] st].
  unfold max_iter. simpl. apply raised_bind_l.
  unfold iteration. apply raised_bind_l.
  unfold loss_at. apply bind_raised. intros feat. done.
Qed.

End AsItStands.

(** C5. The learning rate of [style_transfer] never decays. The schedule is
    called once, before the loop, on a step counter that holds 0 and is
    never assigned again, and the number it returns (3.0) is what the
    optimizer gets. So in every call that runs to its end, each of the 200
    iterations applies 3.0: iteration 180, like every later one, applies
    3.0 and not 0.1. *)
Theorem style_transfer_learning_rate_constant {slots : Type} (adam_init : slots)
    (adam_rule : Q → nat → slots → Tensor.tensor → Tensor.tensor → slots * Tensor.tensor)
    (tape_gradient : (Tensor.tensor → Py.result Q) → Tensor.tensor → Tensor.tensor)
    (random_uniform : Tensor.tensor → Tensor.tensor)
    (c : StyleTransfer.cells) (model : Model.SqueezeNet)
    (content_img style_img : Tensor.tensor) (content_layer : nat)
    (content_weight : Q) (style_layers : list nat) (style_weights : list Q)
    (tv_weight : Q) (init_random : bool) (st : StyleTransfer.state slots) :
  StyleTransfer.style_transfer adam_init adam_rule tape_gradient random_uniform
    c model content_img style_img content_layer content_weight style_layers
    style_weights tv_weight init_random = Py.Ok st →
  StyleTransfer.applied (StyleTransfer.optimizer st)
    = replicate StyleTransfer.max_iter StyleTransfer.initial_lr
  ∧ (∀ t, t < StyleTransfer.max_iter →
       StyleTransfer.applied (StyleTransfer.optimizer st) !! t
       = Some StyleTransfer.initial_lr)
  ∧ StyleTransfer.applied (StyleTransfer.optimizer st) !! 180
    = Some StyleTransfer.initial_lr
  ∧ ¬ (StyleTransfer.initial_lr == StyleTransfer.decayed_lr)%Q
  ∧ StyleTransfer.step st = 0%Z.
Proof.
  unfold StyleTransfer.style_transfer.
  destruct (StyleTransfer.style_transfer_upto _ _ _ _ _ _ _ _ _ _ _ _ _ _ _)
    as [st0|e] eqn:Hrun; simpl; [|done].
  intros [= <-]; simpl.
  apply upto_applied in Hrun as [Happ Hstep]. rewrite Happ.
  split_and!; [done| |done|done|done].
  intros t Ht. by apply lookup_replicate_2.
Qed.

Lemma style_transfer_learning_rate_constant_witness :
  ∃ st, Examples.demo = Py.Ok st
  ∧ StyleTransfer.applied (StyleTransfer.optimizer st)
    = replicate StyleTransfer.max_iter StyleTransfer.initial_lr
  ∧ (∀ t, t < StyleTransfer.max_iter →
       StyleTransfer.applied (StyleTransfer.optimizer st) !! t
       = Some StyleTransfer.initial_lr)
  ∧ StyleTransfer.applied (StyleTransfer.optimizer st) !! 180
    = Some StyleTransfer.initial_lr
  ∧ ¬ (StyleTransfer.initial_lr == StyleTransfer.decayed_lr)%Q
  ∧ StyleTransfer.step st = 0%Z.
Proof.
  eexists. split; [vm_compute; reflexivity|].
  eapply (style_transfer_learning_rate_constant tt Examples.descent_rule
            Examples.ones_gradient id Examples.constant_cells Examples.model9
            Examples.X23 Examples.X23 2 (6 # 100)%Q [0; 3; 5; 6]
            [300000; 1000; 15; 3]%Q (2 # 100)%Q false).
  vm_compute. reflexivity.
Defined.

(** C8. In [style_transfer], after the clip step of every iteration [t] of
    the loop ([0 <= t < max_iter]), every pixel value of the generated image
    lies in [-1.5, 1.5]. *)
Theorem style_transfer_pixels_in_range {slots : Type} (adam_init : slots)
    (adam_rule : Q → nat → slots → Tensor.tensor → Tensor.tensor → slots * Tensor.tensor)
    (tape_gradient : (Tensor.tensor → Py.result Q) → Tensor.tensor → Tensor.tensor)
    (random_uniform : Tensor.tensor → Tensor.tensor)
    (c : StyleTransfer.cells) (model : Model.SqueezeNet)
    (content_img style_img : Tensor.tensor) (content_layer : nat)
    (content_weight : Q) (style_layers : list nat) (style_weights : list Q)
    (tv_weight : Q) (init_random : bool) (t : nat) (st : StyleTransfer.state slots) :
  t < StyleTransfer.max_iter →
  StyleTransfer.style_transfer_upto adam_init adam_rule tape_gradient
    random_uniform c model content_img style_img content_layer content_weight
    style_layers style_weights tv_weight init_random (S t) = Py.Ok st →
  Tensor.all_entries (Tensor.in_range (- (3 # 2)) (3 # 2)) (StyleTransfer.img_var st).
Proof. intros _ Hrun. by eapply upto_in_range. Qed.

Lemma style_transfer_pixels_in_range_witness :
  ∃ st, Examples.demo_upto 2 = Py.Ok st
  ∧ Tensor.all_entries (Tensor.in_range (- (3 # 2)) (3 # 2)) (StyleTransfer.img_var st).
Proof.
  eexists. split; [vm_compute; reflexivity|].
  eapply (style_transfer_pixels_in_range tt Examples.descent_rule
            Examples.ones_gradient id Examples.constant_cells Examples.model9
            Examples.X23 Examples.X23 2 (6 # 100)%Q [0; 3; 5; 6]
            [300000; 1000; 15; 3]%Q (2 # 100)%Q false 1).
  - unfold StyleTransfer.max_iter. lia.
  - vm_compute. reflexivity.
Defined.

(** * Further properties of the notebooks' code *)

(** ** Rolls by any offset *)

Section RollAny.
Context {A : Type}.
Implicit Types l : list A.

(** An offset at or beyond the length does not wrap around: the slices are
    the whole list and the empty list. *)
Lemma roll_ge l (k : Z) : (Z.of_nat (length l) ≤ k)%Z → Py.roll k l = l.
Proof.
  intros Hk. destruct (decide (k = 0%Z)) as [->|Hne]; [apply roll_0|].
  unfold Py.roll, Py.slice_from, Py.slice_to, Py.slice_bound.
  destruct (Z.ltb_spec (- k) 0); [|lia].
  replace (Z.to_nat (Z.of_nat (length l) + - k)) with 0 by lia.
  by rewrite drop_0, take_0, app_nil_r.
Qed.

Lemma roll_le l (k : Z) : (k ≤ - Z.of_nat (length l))%Z → Py.roll k l = l.
Proof.
  intros Hk. unfold Py.roll, Py.slice_from, Py.slice_to, Py.slice_bound.
  destruct (Z.ltb_spec (- k) 0); [lia|].
  replace (Z.to_nat (- k) `min` length l) with (length l) by lia.
  by rewrite drop_all, firstn_all.
Qed.

Lemma roll_undo_left l (m : Z) :
  (0 < m ≤ Z.of_nat (length l))%Z → Py.roll m (Py.roll (- m) l) = l.
Proof.
  intros Hm. rewrite roll_right by (rewrite length_roll; lia).
  rewrite length_roll, roll_left by lia.
  assert (Hlen : length (drop (Z.to_nat m) l) = length l - Z.to_nat m)
    by apply length_drop.
  rewrite drop_app_length', take_app_length' by done.
  apply take_drop.
Qed.

Lemma roll_undo_any l (k : Z) : Py.roll (- k) (Py.roll k l) = l.
Proof.
  destruct (Z_lt_le_dec k (- Z.of_nat (length l))) as [Hlow|Hlow].
  { rewrite (roll_le l k) by lia. apply roll_ge. lia. }
  destruct (Z_lt_le_dec (Z.of_nat (length l)) k) as [Hhigh|Hhigh].
  { rewrite (roll_ge l k) by lia. apply roll_le. lia. }
  destruct (Z_lt_le_dec k 0) as [Hneg|Hpos].
  - replace k with (- (- k))%Z at 2 by lia. apply roll_undo_left. lia.
  - apply roll_undo. lia.
Qed.

(** A roll by an offset of either sign, within the length, is a circular
    shift. *)
Lemma lookup_roll_signed l (k : Z) (j : nat) :
  (- Z.of_nat (length l) < k < Z.of_nat (length l))%Z → j < length l →
  Py.roll k l !! j = l !! Z.to_nat ((Z.of_nat j - k) `mod` Z.of_nat (length l)).
Proof.
  intros Hk Hj. destruct (Z_lt_le_dec k 0) as [Hneg|Hpos];
    [|apply lookup_roll; lia].
  replace k with (- (- k))%Z at 1 by lia. rewrite roll_left by lia.
  set (n := length l) in *.
  destruct (decide (j + Z.to_nat (- k) < n)) as [Hlt|Hge].
  - rewrite lookup_app_l by (rewrite length_drop; fold n; lia).
    rewrite lookup_drop. f_equal.
    rewrite Z.mod_small by lia. lia.
  - rewrite lookup_app_r by (rewrite length_drop; fold n; lia).
    rewrite length_drop. fold n.
    rewrite lookup_take_lt by lia. f_equal.
    rewrite <- (Z_mod_plus_full _ (-1)), Z.mod_small by lia. lia.
Qed.

Lemma roll_Permutation l (k : Z) : Py.roll k l ≡ₚ l.
Proof.
  unfold Py.roll, Py.slice_from, Py.slice_to.
  rewrite Permutation_app_comm. by rewrite take_drop.
Qed.

End RollAny.

Lemma concat_roll_Permutation {A : Type} (l : list (list A)) (k : Z) :
  concat (Py.roll k l) ≡ₚ concat l.
Proof.
  unfold Py.roll, Py.slice_from, Py.slice_to.
  rewrite concat_app, Permutation_app_comm, <- concat_app. by rewrite take_drop.
Qed.

Lemma concat_fmap_roll_Permutation {A : Type} (l : list (list A)) (k : Z) :
  concat (Py.roll k <$> l) ≡ₚ concat l.
Proof.
  induction l as [|row l IH]; csimpl; [done|].
  by rewrite roll_Permutation, IH.
Qed.

(** ** [jitter] at any offset *)

Lemma jitter_undo_any {A : Type} (X : Tensor.tensor4 A) (ox oy : Z) :
  NetworkVisualization.jitter (NetworkVisualization.jitter X ox oy) (- ox) (- oy) = X.
Proof.
  rewrite !jitter_rolls, <- list_fmap_compose.
  transitivity (id <$> X); [|apply list_fmap_id].
  apply list_fmap_ext; intros _ img _; simpl.
  rewrite <- roll_fmap, roll_undo_any, <- list_fmap_compose.
  transitivity (id <$> img); [|apply list_fmap_id].
  apply list_fmap_ext; intros _ row _; simpl. apply roll_undo_any.
Qed.

(** X1. The line 'Undo the jitter' undoes it for every tensor and every
    pair of integer offsets, of either sign and of any size:
    [jitter(jitter(X, ox, oy), -ox, -oy) = X]; and the other way round, a
    jitter by [(ox, oy)] undoes the jitter by [(-ox, -oy)]. *)
Theorem jitter_undone_at_every_offset {A : Type} (X : Tensor.tensor4 A) (ox oy : Z) :
  NetworkVisualization.jitter (NetworkVisualization.jitter X ox oy) (- ox) (- oy) = X
  ∧ NetworkVisualization.jitter (NetworkVisualization.jitter X (- ox) (- oy)) ox oy = X.
Proof.
  split; [apply jitter_undo_any|].
  rewrite <- (Z.opp_involutive ox) at 2. rewrite <- (Z.opp_involutive oy) at 2.
  apply jitter_undo_any.
Qed.

(** X2. [jitter] does not wrap its offsets around: along an axis where the
    offset is at least the size of the tensor (in absolute value), the
    tensor is left as it is. *)
Theorem jitter_offset_beyond_size {A : Type} (X : Tensor.tensor4 A)
    (N H W C : nat) (ox oy : Z) :
  Tensor.has_shape X N H W C →
  ((Z.of_nat W ≤ Z.abs ox)%Z →
     NetworkVisualization.jitter X ox oy = NetworkVisualization.jitter X 0 oy)
  ∧ ((Z.of_nat H ≤ Z.abs oy)%Z →
     NetworkVisualization.jitter X ox oy = NetworkVisualization.jitter X ox 0).
Proof.
  intros [HN HX]. rewrite !jitter_rolls. split; intros Hbig.
  - apply Forall_fmap_ext. eapply Forall_impl; [exact HX|].
    intros img [HH Hrows]; simpl. f_equal.
    apply Forall_fmap_ext. eapply Forall_impl; [exact Hrows|].
    intros row [HW _]; simpl. rewrite roll_0.
    destruct (Z_lt_le_dec ox 0); [apply roll_le|apply roll_ge]; lia.
  - apply Forall_fmap_ext. eapply Forall_impl; [exact HX|].
    intros img [HH Hrows]; simpl. rewrite roll_0.
    destruct (Z_lt_le_dec oy 0); [apply roll_le|apply roll_ge];
      rewrite length_fmap; lia.
Qed.

Lemma jitter_offset_beyond_size_witness :
  ((3 ≤ Z.abs 4)%Z →
     NetworkVisualization.jitter Examples.X23 4 (-7)
     = NetworkVisualization.jitter Examples.X23 0 (-7))
  ∧ ((2 ≤ Z.abs (-7))%Z →
     NetworkVisualization.jitter Examples.X23 4 (-7)
     = NetworkVisualization.jitter Examples.X23 4 0).
Proof.
  apply (jitter_offset_beyond_size Examples.X23 1 2 3 1 4 (-7)).
  split; [reflexivity|]. repeat constructor.
Defined.

(** X3. For offsets of either sign and smaller than the size of the
    tensor, [jitter] is the circular shift: the pixel at row [i], column
    [j] is the pixel of [X] at row [(i - oy) mod H], column
    [(j - ox) mod W]. *)
Theorem jitter_pixel_signed {A : Type} (X : Tensor.tensor4 A)
    (N H W C : nat) (ox oy : Z) (n i j : nat) :
  Tensor.has_shape X N H W C →
  (- Z.of_nat W < ox < Z.of_nat W)%Z → (- Z.of_nat H < oy < Z.of_nat H)%Z →
  n < N → i < H → j < W →
  Tensor.pixel (NetworkVisualization.jitter X ox oy) n i j =
  Tensor.pixel X n (Z.to_nat ((Z.of_nat i - oy) `mod` Z.of_nat H))
                   (Z.to_nat ((Z.of_nat j - ox) `mod` Z.of_nat W)).
Proof.
  intros [HN HX] Hox Hoy Hn Hi Hj. rewrite jitter_rolls. unfold Tensor.pixel.
  rewrite list_lookup_fmap.
  destruct (lookup_lt_is_Some_2 X n) as [img Himg]; [lia|].
  rewrite Himg; simpl.
  rewrite Forall_lookup in HX. destruct (HX _ _ Himg) as [HH Hrows].
  rewrite lookup_roll_signed by (rewrite length_fmap; lia).
  rewrite length_fmap, HH, list_lookup_fmap.
  set (i' := Z.to_nat ((Z.of_nat i - oy) `mod` Z.of_nat H)).
  assert (Hi' : i' < H).
  { unfold i'. pose proof (Z.mod_pos_bound (Z.of_nat i - oy) (Z.of_nat H)). lia. }
  destruct (lookup_lt_is_Some_2 img i') as [row Hrow]; [lia|].
  rewrite Hrow; simpl.
  rewrite Forall_lookup in Hrows. destruct (Hrows _ _ Hrow) as [HW _].
  rewrite lookup_roll_signed by lia. by rewrite HW.
Qed.

Lemma jitter_pixel_signed_witness :
  Tensor.pixel (NetworkVisualization.jitter Examples.X23 (-1) (-1)) 0 1 2 =
  Tensor.pixel Examples.X23 0 (Z.to_nat ((Z.of_nat 1 - -1) `mod` Z.of_nat 2))
                              (Z.to_nat ((Z.of_nat 2 - -1) `mod` Z.of_nat 3)).
Proof.
  apply (jitter_pixel_signed Examples.X23 1 2 3 1 (-1) (-1) 0 1 2); try lia.
  split; [reflexivity|]. repeat constructor.
Defined.

(** X4. [jitter] moves pixels and never looks into them: it commutes with
    every operation applied to each pixel on its own, such as clipping. *)
Theorem jitter_commutes_with_pixel_maps {A B : Type} (g : list A → list B)
    (X : Tensor.tensor4 A) (ox oy : Z) :
  NetworkVisualization.jitter (lmap (lmap (lmap g)) X) ox oy
  = lmap (lmap (lmap g)) (NetworkVisualization.jitter X ox oy).
Proof.
  rewrite !jitter_rolls, <- !list_fmap_compose.
  apply list_fmap_ext; intros _ img _; simpl.
  rewrite roll_fmap. f_equal. rewrite <- !list_fmap_compose.
  apply list_fmap_ext; intros _ row _; simpl. by rewrite roll_fmap.
Qed.

(** X5. The two axes are shifted independently: a jitter is the width shift
    followed by the height shift, in either order. *)
Theorem jitter_axes_independent {A : Type} (X : Tensor.tensor4 A) (ox oy : Z) :
  NetworkVisualization.jitter X ox oy
    = NetworkVisualization.jitter (NetworkVisualization.jitter X ox 0) 0 oy
  ∧ NetworkVisualization.jitter X ox oy
    = NetworkVisualization.jitter (NetworkVisualization.jitter X 0 oy) ox 0.
Proof.
  rewrite !jitter_rolls, <- !list_fmap_compose. split.
  - apply list_fmap_ext; intros _ img _; simpl.
    rewrite roll_0. f_equal. rewrite <- list_fmap_compose.
    apply list_fmap_ext; intros _ row _; simpl. by rewrite roll_0.
  - apply list_fmap_ext; intros _ img _; simpl.
    rewrite roll_0, roll_fmap. f_equal. rewrite <- list_fmap_compose.
    apply list_fmap_ext; intros _ row _; simpl. by rewrite roll_0.
Qed.

(** X6. [jitter] loses and duplicates nothing: every image of the result
    holds exactly the pixels of the same image of [X], rearranged, and the
    batch keeps its length. *)
Theorem jitter_permutes_pixels {A : Type} (X : Tensor.tensor4 A) (ox oy : Z) :
  length (NetworkVisualization.jitter X ox oy) = length X
  ∧ (∀ n img, X !! n = Some img →
       ∃ img', NetworkVisualization.jitter X ox oy !! n = Some img'
               ∧ concat img' ≡ₚ concat img).
Proof.
  rewrite jitter_rolls. split; [by rewrite length_fmap|].
  intros n img Himg. eexists. rewrite list_lookup_fmap, Himg; simpl.
  split; [done|].
  by rewrite concat_roll_Permutation, concat_fmap_roll_Permutation.
Qed.

(** ** The class visualization loop *)

Section ClassVisualizationLoop.
Import Tensor Model NetworkVisualization ClassVisualization.

Context (gaussian_filter1d : tensor → Q → nat → tensor)
        (SQUEEZENET_MEAN SQUEEZENET_STD : list Q)
        (class_names : gset Z)
        (noise : list (list (list Q))).

Local Abbreviation lo := (clip_lo SQUEEZENET_MEAN SQUEEZENET_STD).
Local Abbreviation hi := (clip_hi SQUEEZENET_MEAN SQUEEZENET_STD).
Local Abbreviation blur := (blur_image gaussian_filter1d).
Local Abbreviation step draws :=
  (iteration gaussian_filter1d SQUEEZENET_MEAN SQUEEZENET_STD class_names draws).

(** With [pass] between the jitter and its undoing, the offsets drawn
    cancel out of an iteration. *)
Lemma iteration_offsets (draws draws' : Z → Z * Z)
    (target_y n b mj se t : Z) (st : tensor * list Z) :
  step draws target_y n b mj se t st = step draws' target_y n b mj se t st.
Proof.
  unfold iteration, randint. destruct st as [X out].
  destruct (decide (mj ≤ 0)%Z); simpl; [done|].
  destruct (draws t) as [ox oy], (draws' t) as [ox' oy']. simpl.
  by rewrite !jitter_undo_any.
Qed.

Lemma for_each_ext (f g : Z → tensor * list Z → result (tensor * list Z))
    (ts : list Z) (st : tensor * list Z) :
  (∀ t st', f t st' = g t st') → for_each f ts st = for_each g ts st.
Proof.
  intros Hfg. revert st. induction ts as [|t ts IH]; intros st; simpl; [done|].
  rewrite Hfg. destruct (g t st) as [st'|e]; simpl; [apply IH|done].
Qed.

Lemma cv_for_each_cons (f : Z → tensor * list Z → result (tensor * list Z))
    (ts : list Z) (t : Z) (st : tensor * list Z) :
  for_each f (t :: ts) st = (st' ← f t st; for_each f ts st').
Proof. reflexivity. Qed.

Lemma cv_for_each_snoc (f : Z → tensor * list Z → result (tensor * list Z))
    (ts : list Z) (t : Z) (st : tensor * list Z) :
  for_each f (ts ++ [t]) st = (st' ← for_each f ts st; f t st').
Proof.
  revert st. induction ts as [|t0 ts IH]; intros st; simpl.
  - by destruct (f t st).
  - destruct (f t0 st) as [st0|e]; simpl; [apply IH|done].
Qed.

(** What an iteration that returns leaves behind: the clipped image,
    blurred or not, and a log that grew by at most its own number. *)
Lemma iteration_Ok_inv (draws : Z → Z * Z) (target_y n b mj se t : Z)
    (X X' : tensor) (out out' : list Z) :
  step draws target_y n b mj se t (X, out) = Ok (X', out') →
  b ≠ 0%Z
  ∧ X' = (if decide ((t `mod` b)%Z = 0%Z)
          then blur (clip_by_channel X lo hi) (1 # 2)%Q
          else clip_by_channel X lo hi)
  ∧ (out' = out ∨ out' = out ++ [(t + 1)%Z])
  ∧ (t = 0%Z ∨ t = (n - 1)%Z → out' = out ++ [(t + 1)%Z]).
Proof.
  unfold iteration, randint, py_mod.
  destruct (decide (mj ≤ 0)%Z); simpl; [done|].
  destruct (draws t) as [ox oy]. simpl.
  rewrite jitter_undo_any.
  destruct (decide (b = 0%Z)) as [|Hb]; [done|]. simpl.
  set (X1 := if decide ((t `mod` b)%Z = 0%Z) then _ else _).
  destruct (decide (t = 0%Z)) as [Ht|Ht]; simpl.
  - destruct (first X1); simpl; [|done].
    destruct (class_name class_names target_y); simpl; [|done].
    intros [= <- <-]. split_and!; auto.
  - destruct (decide (se = 0%Z)) as [|Hse]; [done|]. simpl.
    destruct (decide (((t + 1) `mod` se)%Z = 0%Z)); simpl.
    + destruct (first X1); simpl; [|done].
      destruct (class_name class_names target_y); simpl; [|done].
      intros [= <- <-]. split_and!; auto.
    + case_bool_decide as Hlast; simpl.
      * destruct (first X1); simpl; [|done].
        destruct (class_name class_names target_y); simpl; [|done].
        intros [= <- <-]. split_and!; auto.
      * intros [= <- <-]. split_and!; auto.
        intros [?|?]; congruence.
Qed.

(** The log only grows. *)
Lemma for_each_log (draws : Z → Z * Z) (target_y n b mj se : Z) (ts : list Z)
    (X X' : tensor) (out out' : list Z) :
  for_each (step draws target_y n b mj se) ts (X, out) = Ok (X', out') →
  ∃ more, out' = out ++ more.
Proof.
  revert X out. induction ts as [|t ts IH]; intros X out.
  - intros [= <- <-]. exists []. by rewrite app_nil_r.
  - rewrite cv_for_each_cons.
    destruct (step draws target_y n b mj se t (X, out)) as [[X1 out1]|e] eqn:Hstep;
      simpl; [|done].
    intros Hrest. apply IH in Hrest as [more ->].
    apply iteration_Ok_inv in Hstep as (_ & _ & [->| ->] & _).
    + by exists more.
    + exists ((t + 1)%Z :: more). by rewrite <- app_assoc.
Qed.

Lemma seqZ_snoc (n : Z) : (1 ≤ n)%Z → seqZ 0 n = seqZ 0 (n - 1) ++ [(n - 1)%Z].
Proof.
  intros Hn. replace n with ((n - 1) + 1)%Z at 1 by lia.
  rewrite seqZ_app by lia. f_equal.
Qed.

(** The bounds of a channel are in order when its standard deviation is
    positive. *)
Lemma clip_bounds_ordered (m s : Q) : (0 < s)%Q → ((- m) / s <= (1 - m) / s)%Q.
Proof.
  intros Hs. unfold Qdiv. apply Qmult_le_compat_r.
  - apply Qplus_le_l with (z := m). ring_simplify. discriminate.
  - apply Qlt_le_weak, Qinv_lt_0_compat, Hs.
Qed.

Lemma clip_by_channel_in_range (X : tensor) (i j h k : nat) (px : list Q) (x : Q) :
  Forall (λ s, (0 < s)%Q) SQUEEZENET_STD →
  pixel (clip_by_channel X lo hi) i j h = Some px → px !! k = Some x →
  ∃ m s, SQUEEZENET_MEAN !! k = Some m ∧ SQUEEZENET_STD !! k = Some s
         ∧ in_range ((- m) / s) ((1 - m) / s) x.
Proof.
  intros Hstd Hpx Hx. unfold pixel, clip_by_channel in Hpx.
  rewrite list_lookup_fmap in Hpx.
  destruct (X !! i) as [img|]; simpl in Hpx; [|done].
  rewrite list_lookup_fmap in Hpx.
  destruct (img !! j) as [row|]; simpl in Hpx; [|done].
  rewrite list_lookup_fmap in Hpx.
  destruct (row !! h) as [px0|]; simpl in Hpx; [|done].
  injection Hpx as <-.
  apply lookup_zip_with_Some in Hx as (x0 & [l u] & -> & Hx0 & Hlu).
  apply lookup_zip_with_Some in Hlu as (l' & u' & [= <- <-] & Hl & Hu).
  apply lookup_zip_with_Some in Hl as (m & s & -> & Hm & Hs).
  apply lookup_zip_with_Some in Hu as (m' & s' & -> & Hm' & Hs').
  simplify_eq. exists m, s. split_and!; [done|done|].
  apply clip_entry_in_range, clip_bounds_ordered.
  rewrite Forall_lookup in Hstd. by eapply Hstd.
Qed.

End ClassVisualizationLoop.

(** X7. As the loop stands, with [pass] between the jitter and its
    undoing, what [create_class_visualization] returns does not depend on
    the offsets drawn, nor on the model, nor on [l2_reg] and
    [learning_rate]. *)
Theorem class_visualization_ignores_offsets_and_model
    (gaussian_filter1d : Tensor.tensor → Q → nat → Tensor.tensor)
    (SQUEEZENET_MEAN SQUEEZENET_STD : list Q) (class_names : gset Z)
    (noise : list (list (list Q))) (draws draws' : Z → Z * Z)
    (target_y : Z) (model model' : Model.SqueezeNet)
    (l2 l2' lr lr' : option Q) (n b mj se : option Z) :
  ClassVisualization.create_class_visualization gaussian_filter1d
    SQUEEZENET_MEAN SQUEEZENET_STD class_names noise draws target_y model
    {| ClassVisualization.l2_reg := l2; ClassVisualization.learning_rate := lr;
       ClassVisualization.num_iterations := n; ClassVisualization.blur_every := b;
       ClassVisualization.max_jitter := mj; ClassVisualization.show_every := se |}
  = ClassVisualization.create_class_visualization gaussian_filter1d
    SQUEEZENET_MEAN SQUEEZENET_STD class_names noise draws' target_y model'
    {| ClassVisualization.l2_reg := l2'; ClassVisualization.learning_rate := lr';
       ClassVisualization.num_iterations := n; ClassVisualization.blur_every := b;
       ClassVisualization.max_jitter := mj; ClassVisualization.show_every := se |}.
Proof.
  unfold ClassVisualization.create_class_visualization; simpl.
  apply for_each_ext. intros t st. apply iteration_offsets.
Qed.

(** X8. [blur_every = 0] stops the call with a [ZeroDivisionError] in its
    first iteration (at [t % blur_every]), whenever there is an iteration
    to run and offsets to draw. *)
Theorem class_visualization_blur_every_zero
    (gaussian_filter1d : Tensor.tensor → Q → nat → Tensor.tensor)
    (SQUEEZENET_MEAN SQUEEZENET_STD : list Q) (class_names : gset Z)
    (noise : list (list (list Q))) (draws : Z → Z * Z)
    (target_y : Z) (model : Model.SqueezeNet) (kw : ClassVisualization.kwargs) :
  ClassVisualization.pop (ClassVisualization.blur_every kw) 10%Z = 0%Z →
  (0 < ClassVisualization.pop (ClassVisualization.num_iterations kw) 100)%Z →
  (0 < ClassVisualization.pop (ClassVisualization.max_jitter kw) 16)%Z →
  ClassVisualization.create_class_visualization gaussian_filter1d
    SQUEEZENET_MEAN SQUEEZENET_STD class_names noise draws target_y model kw
  = ClassVisualization.Raise ClassVisualization.ZeroDivisionError.
Proof.
  intros Hb Hn Hmj. unfold ClassVisualization.create_class_visualization.
  rewrite Hb, seqZ_cons, cv_for_each_cons by done.
  unfold ClassVisualization.iteration, ClassVisualization.randint.
  destruct (decide (_ ≤ 0)%Z); [lia|]. simpl. by destruct (draws 0%Z).
Qed.

Lemma class_visualization_blur_every_zero_witness :
  ClassVisualization.create_class_visualization Examples.no_filter
    Examples.MEAN3 Examples.STD3 Examples.names Examples.noise3 Examples.draws11
    76%Z Examples.model9 (Examples.kwargs_blur_every 3 0)
  = ClassVisualization.Raise ClassVisualization.ZeroDivisionError.
Proof.
  apply (class_visualization_blur_every_zero Examples.no_filter
           Examples.MEAN3 Examples.STD3 Examples.names Examples.noise3
           Examples.draws11 76%Z Examples.model9 (Examples.kwargs_blur_every 3 0));
    simpl; lia.
Defined.

Section ClassVisualizationEdges.
Import Tensor Model NetworkVisualization ClassVisualization.

Context (gaussian_filter1d : tensor → Q → nat → tensor)
        (SQUEEZENET_MEAN SQUEEZENET_STD : list Q)
        (class_names : gset Z)
        (noise : list (list (list Q)))
        (draws : Z → Z * Z).

Local Abbreviation lo := (clip_lo SQUEEZENET_MEAN SQUEEZENET_STD).
Local Abbreviation hi := (clip_hi SQUEEZENET_MEAN SQUEEZENET_STD).
Local Abbreviation blur := (blur_image gaussian_filter1d).
Local Abbreviation step :=
  (iteration gaussian_filter1d SQUEEZENET_MEAN SQUEEZENET_STD class_names draws).
Local Abbreviation run :=
  (create_class_visualization gaussian_filter1d SQUEEZENET_MEAN SQUEEZENET_STD
     class_names noise draws).

(** The first iteration, for arguments that let it through: it always
    blurs and always shows. *)
Lemma iteration_0 (target_y n b mj se : Z) (X : tensor) (out : list Z) :
  (0 < mj)%Z → b ≠ 0%Z → target_y ∈ class_names →
  blur (clip_by_channel X lo hi) (1 # 2)%Q ≠ [] →
  step target_y n b mj se 0%Z (X, out)
  = Ok (blur (clip_by_channel X lo hi) (1 # 2)%Q, out ++ [1%Z]).
Proof.
  intros Hmj Hb Hty Hne. unfold iteration, randint, py_mod, class_name.
  destruct (decide (mj ≤ 0)%Z); [lia|]. simpl.
  destruct (draws 0%Z) as [ox oy]. simpl. rewrite jitter_undo_any.
  destruct (decide (b = 0%Z)); [done|]. simpl.
  rewrite ?Zmod_0_l. simpl.
  destruct (blur _ _) as [|img X']; [done|]. simpl.
  by rewrite decide_True.
Qed.

(** In a later iteration [show_every = 0] cannot be got around. *)
Lemma iteration_show_every_zero (target_y n b mj t : Z) (st : tensor * list Z) :
  (0 < mj)%Z → b ≠ 0%Z → t ≠ 0%Z →
  step target_y n b mj 0%Z t st = Raise ZeroDivisionError.
Proof.
  intros Hmj Hb Ht. unfold iteration, randint, py_mod. destruct st as [X out].
  destruct (decide (mj ≤ 0)%Z); [lia|]. simpl.
  destruct (draws t) as [ox oy]. simpl.
  destruct (decide (b = 0%Z)); [done|]. simpl.
  by destruct (decide (t = 0%Z)).
Qed.

Lemma run_unfold (target_y : Z) (model : SqueezeNet) (kw : kwargs) :
  run target_y model kw
  = for_each (step target_y (pop (num_iterations kw) 100%Z)
                (pop (blur_every kw) 10%Z) (pop (max_jitter kw) 16%Z)
                (pop (show_every kw) 25%Z))
             (seqZ 0 (pop (num_iterations kw) 100%Z)) ([noise], []).
Proof. reflexivity. Qed.

End ClassVisualizationEdges.

(** X9. [show_every = 0] is harmless in a call of one iteration, because
    the test [t == 0 or ...] stops at its first operand, and stops every
    longer call with a [ZeroDivisionError] in its second iteration (for a
    known class, a non-zero [blur_every], a positive [max_jitter] and a
    filter that keeps the batch). *)
Theorem class_visualization_show_every_zero
    (gaussian_filter1d : Tensor.tensor → Q → nat → Tensor.tensor)
    (SQUEEZENET_MEAN SQUEEZENET_STD : list Q) (class_names : gset Z)
    (noise : list (list (list Q))) (draws : Z → Z * Z)
    (target_y : Z) (model : Model.SqueezeNet) (kw : ClassVisualization.kwargs) :
  ClassVisualization.pop (ClassVisualization.show_every kw) 25%Z = 0%Z →
  ClassVisualization.pop (ClassVisualization.blur_every kw) 10%Z ≠ 0%Z →
  (0 < ClassVisualization.pop (ClassVisualization.max_jitter kw) 16)%Z →
  target_y ∈ class_names →
  (∀ X sigma axis, length (gaussian_filter1d X sigma axis) = length X) →
  (ClassVisualization.pop (ClassVisualization.num_iterations kw) 100%Z = 1%Z →
     ∃ X, ClassVisualization.create_class_visualization gaussian_filter1d
            SQUEEZENET_MEAN SQUEEZENET_STD class_names noise draws target_y model kw
          = ClassVisualization.Ok (X, [1%Z]))
  ∧ ((2 ≤ ClassVisualization.pop (ClassVisualization.num_iterations kw) 100)%Z →
     ClassVisualization.create_class_visualization gaussian_filter1d
       SQUEEZENET_MEAN SQUEEZENET_STD class_names noise draws target_y model kw
     = ClassVisualization.Raise ClassVisualization.ZeroDivisionError).
Proof.
  intros Hse Hb Hmj Hty Hlen. rewrite run_unfold, Hse.
  assert (Hne : ClassVisualization.blur_image gaussian_filter1d
                  (ClassVisualization.clip_by_channel [noise]
                     (ClassVisualization.clip_lo SQUEEZENET_MEAN SQUEEZENET_STD)
                     (ClassVisualization.clip_hi SQUEEZENET_MEAN SQUEEZENET_STD))
                  (1 # 2)%Q ≠ []).
  { intros Hnil. apply (f_equal length) in Hnil.
    unfold ClassVisualization.blur_image in Hnil. by rewrite !Hlen in Hnil. }
  split; intros Hn.
  - rewrite Hn. eexists.
    change (seqZ 0 1) with [0%Z]. rewrite cv_for_each_cons.
    rewrite iteration_0 by done. reflexivity.
  - rewrite seqZ_cons, cv_for_each_cons by lia.
    rewrite iteration_0 by done. simpl.
    rewrite seqZ_cons, cv_for_each_cons by lia.
    by rewrite iteration_show_every_zero.
Qed.

Lemma class_visualization_show_every_zero_witness :
  (ClassVisualization.pop (Some 2%Z) 100%Z = 1%Z →
     ∃ X, ClassVisualization.create_class_visualization Examples.no_filter
            Examples.MEAN3 Examples.STD3 Examples.names Examples.noise3
            Examples.draws11 76%Z Examples.model9 (Examples.kwargs_show_every 2 0)
          = ClassVisualization.Ok (X, [1%Z]))
  ∧ ((2 ≤ ClassVisualization.pop (Some 2%Z) 100)%Z →
     ClassVisualization.create_class_visualization Examples.no_filter
       Examples.MEAN3 Examples.STD3 Examples.names Examples.noise3
       Examples.draws11 76%Z Examples.model9 (Examples.kwargs_show_every 2 0)
     = ClassVisualization.Raise ClassVisualization.ZeroDivisionError).
Proof.
  apply (class_visualization_show_every_zero Examples.no_filter
           Examples.MEAN3 Examples.STD3 Examples.names Examples.noise3
           Examples.draws11 76%Z Examples.model9 (Examples.kwargs_show_every 2 0)).
  - reflexivity.
  - simpl. lia.
  - simpl. lia.
  - unfold Examples.names. set_solver.
  - reflexivity.
Defined.

(** X10. When the last iteration does not blur ([(num_iterations - 1) %
    blur_every] is not 0, as with the defaults 100 and 10), every channel
    value of the image returned lies between the bounds of its channel,
    [-mean/std] and [(1 - mean)/std], for positive standard deviations. *)
Theorem class_visualization_result_in_range
    (gaussian_filter1d : Tensor.tensor → Q → nat → Tensor.tensor)
    (SQUEEZENET_MEAN SQUEEZENET_STD : list Q) (class_names : gset Z)
    (noise : list (list (list Q))) (draws : Z → Z * Z)
    (target_y : Z) (model : Model.SqueezeNet) (kw : ClassVisualization.kwargs)
    (X : Tensor.tensor) (out : list Z) :
  ClassVisualization.create_class_visualization gaussian_filter1d
    SQUEEZENET_MEAN SQUEEZENET_STD class_names noise draws target_y model kw
  = ClassVisualization.Ok (X, out) →
  (1 ≤ ClassVisualization.pop (ClassVisualization.num_iterations kw) 100)%Z →
  ((ClassVisualization.pop (ClassVisualization.num_iterations kw) 100 - 1)
     `mod` ClassVisualization.pop (ClassVisualization.blur_every kw) 10 ≠ 0)%Z →
  Forall (λ s, (0 < s)%Q) SQUEEZENET_STD →
  ∀ (i j h k : nat) (px : list Q) (x : Q),
    Tensor.pixel X i j h = Some px → px !! k = Some x →
    ∃ m s, SQUEEZENET_MEAN !! k = Some m ∧ SQUEEZENET_STD !! k = Some s
           ∧ Tensor.in_range ((- m) / s) ((1 - m) / s) x.
Proof.
  intros Hrun Hn Hmod Hstd i j h k px x Hpx Hx.
  rewrite run_unfold, seqZ_snoc, cv_for_each_snoc in Hrun by done.
  destruct (ClassVisualization.for_each _ _ _) as [[X1 out1]|e];
    simpl in Hrun; [|done].
  apply iteration_Ok_inv in Hrun as (_ & -> & _).
  rewrite decide_False in Hpx by done.
  by eapply clip_by_channel_in_range.
Qed.

Lemma class_visualization_result_in_range_witness :
  ∃ X out,
    ClassVisualization.create_class_visualization Examples.no_filter
      Examples.MEAN3 Examples.STD3 Examples.names Examples.noise3
      Examples.draws11 76%Z Examples.model9 (Examples.kwargs_blur_every 3 10)
    = ClassVisualization.Ok (X, out)
    ∧ ∀ (i j h k : nat) (px : list Q) (x : Q),
        Tensor.pixel X i j h = Some px → px !! k = Some x →
        ∃ m s, Examples.MEAN3 !! k = Some m ∧ Examples.STD3 !! k = Some s
               ∧ Tensor.in_range ((- m) / s) ((1 - m) / s) x.
Proof.
  do 2 eexists. split; [vm_compute; reflexivity|].
  eapply (class_visualization_result_in_range Examples.no_filter
            Examples.MEAN3 Examples.STD3 Examples.names Examples.noise3
            Examples.draws11 76%Z Examples.model9 (Examples.kwargs_blur_every 3 10)).
  - vm_compute. reflexivity.
  - simpl. lia.
  - simpl. discriminate.
  - repeat constructor.
Defined.

(** X11. A call that returns has shown its first and its last iteration:
    the numbers shown start with 1 and end with [num_iterations]. *)
Theorem class_visualization_shows_first_and_last
    (gaussian_filter1d : Tensor.tensor → Q → nat → Tensor.tensor)
    (SQUEEZENET_MEAN SQUEEZENET_STD : list Q) (class_names : gset Z)
    (noise : list (list (list Q))) (draws : Z → Z * Z)
    (target_y : Z) (model : Model.SqueezeNet) (kw : ClassVisualization.kwargs)
    (X : Tensor.tensor) (out : list Z) :
  ClassVisualization.create_class_visualization gaussian_filter1d
    SQUEEZENET_MEAN SQUEEZENET_STD class_names noise draws target_y model kw
  = ClassVisualization.Ok (X, out) →
  (1 ≤ ClassVisualization.pop (ClassVisualization.num_iterations kw) 100)%Z →
  head out = Some 1%Z
  ∧ last out = Some (ClassVisualization.pop (ClassVisualization.num_iterations kw) 100%Z).
Proof.
  intros Hrun Hn. rewrite run_unfold in Hrun. split.
  - rewrite seqZ_cons, cv_for_each_cons in Hrun by lia.
    destruct (ClassVisualization.iteration _ _ _ _ _ _ _ _ _ _ _ _)
      as [[X1 out1]|e] eqn:Hfirst; simpl in Hrun; [|done].
    apply iteration_Ok_inv in Hfirst as (_ & _ & _ & Hshown).
    rewrite Hshown in Hrun by auto.
    apply for_each_log in Hrun as [more ->]. done.
  - rewrite seqZ_snoc, cv_for_each_snoc in Hrun by done.
    destruct (ClassVisualization.for_each _ _ _) as [[X1 out1]|e];
      simpl in Hrun; [|done].
    apply iteration_Ok_inv in Hrun as (_ & _ & _ & Hshown).
    rewrite Hshown by auto. rewrite last_snoc. f_equal. lia.
Qed.

Lemma class_visualization_shows_first_and_last_witness :
  ∃ X out,
    ClassVisualization.create_class_visualization Examples.no_filter
      Examples.MEAN3 Examples.STD3 Examples.names Examples.noise3
      Examples.draws11 76%Z Examples.model9 Examples.kwargs_none
    = ClassVisualization.Ok (X, out)
    ∧ head out = Some 1%Z ∧ last out = Some 100%Z.
Proof.
  do 2 eexists. split; [vm_compute; reflexivity|].
  eapply (class_visualization_shows_first_and_last Examples.no_filter
            Examples.MEAN3 Examples.STD3 Examples.names Examples.noise3
            Examples.draws11 76%Z Examples.model9 Examples.kwargs_none).
  - vm_compute. reflexivity.
  - simpl. lia.
Defined.

(** ** [rel_error] *)

Section RelError.
Import Tensor StyleTransfer.
Open Scope Q_scope.









(** Against a value that is not tiny, the answer 0 is wrong by exactly 1. *)
Lemma rel_error_entry_of_zero (x : Q) :
  (1 # 100000000) <= Qabs x → rel_error_entry x 0 == 1.
Proof.
  intros Hx. unfold rel_error_entry.
  assert (Hn : x - 0 == x) by ring.
  assert (Hd : Qabs x + Qabs 0 == Qabs x) by (change (Qabs 0) with 0; ring).
  rewrite Hn, Hd, Q.max_r by done.
  apply Qmult_inv_r. intros H0. lra.
Qed.

End RelError.

Section RelErrorArrays.
Import Tensor StyleTransfer.





End RelErrorArrays.



(** X14. Against a reference that is at least 1e-8 in absolute value, the
    answer 0 has relative error exactly 1. *)
Theorem rel_error_of_zero_answer (x : Q) :
  ((1 # 100000000) <= Qabs x)%Q →
  ∃ e, StyleTransfer.rel_error x (Some 0%Q) = Py.Ok e ∧ (e == 1)%Q.
Proof.
  intros Hx. eexists. split; [reflexivity|]. by apply rel_error_entry_of_zero.
Qed.

Lemma rel_error_of_zero_answer_witness :
  ∃ e, StyleTransfer.rel_error (- (5 # 2))%Q (Some 0%Q) = Py.Ok e ∧ (e == 1)%Q.
Proof.
  apply (rel_error_of_zero_answer (- (5 # 2))%Q). vm_compute. discriminate.
Defined.

(** ** [extract_features] and the feature maps the cells index *)

Section Features.
Import Tensor Model StyleTransfer.

Lemma features_from_lookup (ls : list (tensor → tensor)) (x : tensor) (i : nat) :
  features_from ls x !! i
  = if decide (i < length ls)
    then Some (foldl (λ v layer, layer v) x (take (S i) ls))
    else None.
Proof.
  revert x i. induction ls as [|l ls IH]; intros x i; [done|].
  destruct i as [|i]; simpl; [|rewrite IH];
    repeat case_decide; try lia; try done.
Qed.

Lemma length_extract_features (x : tensor) (cnn : SqueezeNet) :
  length (extract_features x cnn) = length (layers (net cnn)) - 2.
Proof.
  rewrite extract_features_unfold, length_features_from, length_take. lia.
Qed.

Lemma index_IndexError {B : Type} (l : list B) (i : nat) :
  length l ≤ i → Py.index l i = Py.Raise Py.IndexError.
Proof. intros Hi. unfold Py.index. by rewrite lookup_ge_None_2. Qed.

Lemma index_Ok {B : Type} (l : list B) (i : nat) :
  i < length l → ∃ b, l !! i = Some b ∧ Py.index l i = Py.Ok b.
Proof.
  intros Hi. destruct (lookup_lt_is_Some_2 l i Hi) as [b Hb].
  exists b. unfold Py.index. by rewrite Hb.
Qed.

Lemma gram_targets_IndexError (c : cells) (feats : list tensor) (ls : list nat) :
  Exists (λ idx, length feats ≤ idx) ls →
  gram_targets c feats ls = Py.Raise Py.IndexError.
Proof.
  induction 1 as [idx ls Hidx|idx ls _ IH]; simpl.
  - by rewrite index_IndexError.
  - unfold Py.index at 1. destruct (feats !! idx); simpl; [|done].
    by rewrite IH.
Qed.

End Features.

Section Targets.
Import Tensor Model StyleTransfer.

Lemma gram_targets_Ok (c : cells) (feats : list tensor) (ls : list nat) :
  Forall (λ idx, idx < length feats) ls →
  gram_targets c feats ls
  = Py.Ok ((λ idx, gram_matrix_fn c (feats !!! idx) true) <$> ls).
Proof.
  induction 1 as [|idx ls Hidx _ IH]; simpl; [done|].
  destruct (index_Ok feats idx Hidx) as (feat & Hfeat & ->). simpl.
  rewrite IH. simpl. by rewrite (list_lookup_total_correct _ _ _ Hfeat).
Qed.

End Targets.

(** X15. Entry [i] of [extract_features(x, cnn)] is the layers 0 to [i] of
    [cnn.net] applied to [x] one after the other, for every [i] before the
    last two layers; there is no entry for the last two layers or beyond. *)
Theorem extract_features_entry (x : Tensor.tensor) (cnn : Model.SqueezeNet) (i : nat) :
  StyleTransfer.extract_features x cnn !! i
  = if decide (i < length (Model.layers (Model.net cnn)) - 2)
    then Some (foldl (λ v layer, layer v) x
                 (take (S i) (Model.layers (Model.net cnn))))
    else None.
Proof.
  rewrite extract_features_unfold, features_from_lookup, length_take.
  repeat case_decide; try lia; [|done].
  rewrite take_take. by replace (S i `min` _) with (S i) by lia.
Qed.

(** X16. The checks index the feature maps before they call the cell they
    check: on a network with fewer than 5 layers [content_loss_test] stops
    with an [IndexError], and so do [gram_matrix_test] with fewer than 7
    layers and [style_loss_test] with fewer than 9, whatever the cells
    hold. *)
Theorem checks_need_enough_layers (c : StyleTransfer.cells) (model : Model.SqueezeNet)
    (content_img_test style_img_test : Tensor.tensor) (cl_out sl_out : Q)
    (gm_out : Tensor.matrix) :
  (length (Model.layers (Model.net model)) < 5 →
     StyleTransfer.content_loss_test c model content_img_test cl_out
     = Py.Raise Py.IndexError)
  ∧ (length (Model.layers (Model.net model)) < 7 →
     StyleTransfer.gram_matrix_test c model style_img_test gm_out
     = Py.Raise Py.IndexError)
  ∧ (length (Model.layers (Model.net model)) < 9 →
     StyleTransfer.style_loss_test c model content_img_test style_img_test sl_out
     = Py.Raise Py.IndexError).
Proof.
  split_and!; intros Hlen.
  - unfold StyleTransfer.content_loss_test. cbv zeta.
    rewrite (index_IndexError (StyleTransfer.extract_features content_img_test model));
      [done|].
    rewrite length_extract_features. lia.
  - unfold StyleTransfer.gram_matrix_test. cbv zeta.
    rewrite index_IndexError; [done|]. rewrite length_extract_features. lia.
  - unfold StyleTransfer.style_loss_test. cbv zeta.
    rewrite gram_targets_IndexError; [done|].
    rewrite length_extract_features.
    do 3 apply Exists_cons_tl. apply Exists_cons_hd. lia.
Qed.

(** X17. The loop that fills [style_targets] gives one Gram matrix per
    style layer, in the order of [style_layers], when every index is that
    of a feature map; one index out of range stops it with an
    [IndexError]. *)
Theorem style_targets_per_layer (c : StyleTransfer.cells)
    (feats : list Tensor.tensor) (style_layers : list nat) :
  (Forall (λ idx, idx < length feats) style_layers →
     StyleTransfer.gram_targets c feats style_layers
     = Py.Ok ((λ idx, StyleTransfer.gram_matrix_fn c (feats !!! idx) true)
                <$> style_layers))
  ∧ (Exists (λ idx, length feats ≤ idx) style_layers →
     StyleTransfer.gram_targets c feats style_layers = Py.Raise Py.IndexError).
Proof. split; [apply gram_targets_Ok|apply gram_targets_IndexError]. Qed.

(** ** More on [style_transfer] *)

Section Transfer.
Import Tensor Model StyleTransfer.

Context {slots : Type}.
Context (adam_init : slots)
        (adam_rule : Q → nat → slots → tensor → tensor → slots * tensor)
        (tape_gradient : (tensor → Py.result Q) → tensor → tensor)
        (random_uniform : tensor → tensor).
Context (c : cells) (model : SqueezeNet) (content_img style_img : tensor)
        (content_layer : nat) (content_weight : Q) (style_layers : list nat)
        (style_weights : list Q) (tv_weight : Q) (init_random : bool).

Local Abbreviation loss := (loss_at c model content_layer content_weight
                              style_layers style_weights tv_weight).
Local Abbreviation body := (iteration adam_rule tape_gradient c model content_layer
                              content_weight style_layers style_weights tv_weight).
Local Abbreviation start := (setup adam_init random_uniform c model content_img
                               style_img content_layer style_layers init_random).
Local Abbreviation upto := (style_transfer_upto adam_init adam_rule tape_gradient
                              random_uniform c model content_img style_img
                              content_layer content_weight style_layers
                              style_weights tv_weight init_random).
Local Abbreviation features := (length (layers (net model)) - 2).

Lemma setup_IndexError :
  features ≤ content_layer ∨ Exists (λ idx, features ≤ idx) style_layers →
  start = Py.Raise Py.IndexError.
Proof.
  intros Hbad. unfold setup.
  destruct (decide (content_layer < features)) as [Hin|Hout].
  - destruct Hbad as [?|Hstyle]; [lia|].
    destruct (index_Ok (extract_features content_img model) content_layer)
      as (ct & _ & ->); [by rewrite length_extract_features|]. simpl.
    rewrite gram_targets_IndexError; [done|].
    by rewrite length_extract_features.
  - rewrite index_IndexError; [done|]. rewrite length_extract_features. lia.
Qed.

Lemma setup_total :
  content_layer < features → Forall (λ idx, idx < features) style_layers →
  ∃ ct tg st, start = Py.Ok (ct, tg, st)
    ∧ printed st = [if init_random then InitializingRandomly
                    else InitializingWithContentImage]
    ∧ iterations (optimizer st) = 0.
Proof.
  intros Hc Hs. unfold setup.
  destruct (index_Ok (extract_features content_img model) content_layer)
    as (ct & _ & ->); [by rewrite length_extract_features|]. simpl.
  rewrite gram_targets_Ok by (by rewrite length_extract_features). simpl.
  destruct init_random; do 3 eexists; split_and!; done.
Qed.




(** What the loop prints and how often it steps the optimizer. *)
Lemma for_each_printed ct tg (ts : list nat) (st st' : state slots) :
  for_each (body ct tg) ts st = Py.Ok st' →
  printed st' = printed st ++ (Iteration <$> filter (λ t, t `mod` 100 = 0) ts)
  ∧ iterations (optimizer st') = iterations (optimizer st) + length ts.
Proof.
  revert st. induction ts as [|t ts IH]; intros st; simpl.
  - intros [= <-]. split; [by rewrite app_nil_r|lia].
  - destruct (body ct tg t st) as [st1|e] eqn:Hbody; simpl; [|done].
    intros Hrest. apply IH in Hrest as [-> ->].
    revert Hbody. unfold iteration.
    destruct (loss ct tg (img_var st)); simpl; [|done].
    unfold apply_gradients. destruct (adam_rule _ _ _ _ _) as [s var].
    intros [= <-]; simpl. rewrite filter_cons.
    case_decide; simpl; rewrite <- ?app_assoc; split; (done || lia).
Qed.

Lemma upto_from_setup ct tg (st0 : state slots) (n : nat) :
  start = Py.Ok (ct, tg, st0) → upto n = for_each (body ct tg) (seq 0 n) st0.
Proof. unfold style_transfer_upto. by intros ->. Qed.

Lemma upto_printed (n : nat) (st : state slots) :
  upto n = Py.Ok st →
  printed st
    = (if init_random then InitializingRandomly else InitializingWithContentImage)
      :: (Iteration <$> filter (λ t, t `mod` 100 = 0) (seq 0 n))
  ∧ iterations (optimizer st) = n.
Proof.
  destruct start as [[[ct tg] st0]|e] eqn:Hsetup;
    [|by unfold style_transfer_upto; rewrite Hsetup].
  rewrite (upto_from_setup _ _ _ _ Hsetup). intros Hrun.
  apply for_each_printed in Hrun as [-> ->]. rewrite length_seq.
  revert Hsetup. unfold setup.
  destruct (Py.index _ _); simpl; [|done].
  destruct (gram_targets _ _ _); simpl; [|done].
  destruct init_random; intros [= <- <- <-]; done.
Qed.

End Transfer.

(** X18. [style_transfer] fails before its first optimization step when a
    layer index is out of range: a [content_layer], or any entry of
    [style_layers], that is not the index of a feature map (there are
    [len(cnn.net.layers) - 2] of them) stops the call with an
    [IndexError], whatever the loss cells hold. *)
Theorem style_transfer_layer_out_of_range {slots : Type} (adam_init : slots)
    (adam_rule : Q → nat → slots → Tensor.tensor → Tensor.tensor → slots * Tensor.tensor)
    (tape_gradient : (Tensor.tensor → Py.result Q) → Tensor.tensor → Tensor.tensor)
    (random_uniform : Tensor.tensor → Tensor.tensor)
    (c : StyleTransfer.cells) (model : Model.SqueezeNet)
    (content_img style_img : Tensor.tensor) (content_layer : nat)
    (content_weight : Q) (style_layers : list nat) (style_weights : list Q)
    (tv_weight : Q) (init_random : bool) :
  length (Model.layers (Model.net model)) - 2 ≤ content_layer
  ∨ Exists (λ idx, length (Model.layers (Model.net model)) - 2 ≤ idx) style_layers →
  StyleTransfer.style_transfer adam_init adam_rule tape_gradient random_uniform
    c model content_img style_img content_layer content_weight style_layers
    style_weights tv_weight init_random = Py.Raise Py.IndexError.
Proof.
  intros Hbad. unfold StyleTransfer.style_transfer, StyleTransfer.style_transfer_upto.
  by rewrite setup_IndexError.
Qed.

Lemma style_transfer_layer_out_of_range_witness :
  StyleTransfer.style_transfer tt Examples.descent_rule Examples.ones_gradient id
    Examples.constant_cells Examples.model9 Examples.X23 Examples.X23 2
    (6 # 100)%Q [0; 3; 7] [300000; 1000; 15]%Q (2 # 100)%Q false
  = Py.Raise Py.IndexError.
Proof.
  apply (style_transfer_layer_out_of_range tt Examples.descent_rule
           Examples.ones_gradient id Examples.constant_cells Examples.model9
           Examples.X23 Examples.X23 2 (6 # 100)%Q [0; 3; 7]
           [300000; 1000; 15]%Q (2 # 100)%Q false).
  right. do 2 apply Exists_cons_tl. apply Exists_cons_hd. simpl. lia.
Defined.



(** X20. A call of [style_transfer] that returns has stepped the optimizer
    200 times and printed, after the line on the initial image, the
    iterations 0 and 100 and then the last one, 199. *)
Theorem style_transfer_prints {slots : Type} (adam_init : slots)
    (adam_rule : Q → nat → slots → Tensor.tensor → Tensor.tensor → slots * Tensor.tensor)
    (tape_gradient : (Tensor.tensor → Py.result Q) → Tensor.tensor → Tensor.tensor)
    (random_uniform : Tensor.tensor → Tensor.tensor)
    (c : StyleTransfer.cells) (model : Model.SqueezeNet)
    (content_img style_img : Tensor.tensor) (content_layer : nat)
    (content_weight : Q) (style_layers : list nat) (style_weights : list Q)
    (tv_weight : Q) (init_random : bool) (st : StyleTransfer.state slots) :
  StyleTransfer.style_transfer adam_init adam_rule tape_gradient random_uniform
    c model content_img style_img content_layer content_weight style_layers
    style_weights tv_weight init_random = Py.Ok st →
  StyleTransfer.printed st
    = [ if init_random then StyleTransfer.InitializingRandomly
        else StyleTransfer.InitializingWithContentImage;
        StyleTransfer.Iteration 0; StyleTransfer.Iteration 100;
        StyleTransfer.Iteration 199 ]
  ∧ StyleTransfer.iterations (StyleTransfer.optimizer st) = 200.
Proof.
  unfold StyleTransfer.style_transfer.
  destruct (StyleTransfer.style_transfer_upto _ _ _ _ _ _ _ _ _ _ _ _ _ _ _)
    as [st1|e] eqn:Hupto; [|done].
  intros [= <-]. apply upto_printed in Hupto as [Hprinted Hcount].
  cbn [StyleTransfer.printed StyleTransfer.optimizer].
  rewrite Hprinted, Hcount. split; [|done].
  vm_compute. reflexivity.
Qed.

Lemma style_transfer_prints_witness :
  ∃ st, Examples.demo = Py.Ok st
    ∧ StyleTransfer.printed st
      = [ StyleTransfer.InitializingWithContentImage;
          StyleTransfer.Iteration 0; StyleTransfer.Iteration 100;
          StyleTransfer.Iteration 199 ]
    ∧ StyleTransfer.iterations (StyleTransfer.optimizer st) = 200.
Proof.
  eexists. split; [vm_compute; reflexivity|].
  eapply (style_transfer_prints tt Examples.descent_rule Examples.ones_gradient id
            Examples.constant_cells Examples.model9 Examples.X23 Examples.X23 2
            (6 # 100)%Q [0; 3; 5; 6] [300000; 1000; 15; 3]%Q (2 # 100)%Q false).
  vm_compute. reflexivity.
Defined.

(** X22. With the cells as they stand, the checks of the content loss and
    of the style loss stop with an exception on every input: an
    [IndexError] on a network that is too short, and otherwise the
    [TypeError] of subtracting [None] from the reference. *)
Theorem loss_checks_as_they_stand_raise (model : Model.SqueezeNet)
    (content_img_test style_img_test : Tensor.tensor) (cl_out sl_out : Q) :
  Py.raised (StyleTransfer.content_loss_test StyleTransfer.notebook_cells
               model content_img_test cl_out) = true
  ∧ Py.raised (StyleTransfer.style_loss_test StyleTransfer.notebook_cells
                 model content_img_test style_img_test sl_out) = true.
Proof.
  split.
  - unfold StyleTransfer.content_loss_test.
    apply bind_raised; intros c_feats. apply bind_raised; intros feats. done.
  - unfold StyleTransfer.style_loss_test.
    apply bind_raised; intros targets. done.
Qed.



(** X21. With the loss cells as they stand and layer indices that are
    those of feature maps, every call of [style_transfer] stops in its
    first iteration with the [TypeError] of [None + None]: the set-up goes
    through, and the optimizer is never stepped. *)
Theorem style_transfer_as_it_stands_TypeError {slots : Type} (adam_init : slots)
    (adam_rule : Q → nat → slots → Tensor.tensor → Tensor.tensor → slots * Tensor.tensor)
    (tape_gradient : (Tensor.tensor → Py.result Q) → Tensor.tensor → Tensor.tensor)
    (random_uniform : Tensor.tensor → Tensor.tensor)
    (model : Model.SqueezeNet)
    (content_img style_img : Tensor.tensor) (content_layer : nat)
    (content_weight : Q) (style_layers : list nat) (style_weights : list Q)
    (tv_weight : Q) (init_random : bool) :
  content_layer < length (Model.layers (Model.net model)) - 2 →
  Forall (λ idx, idx < length (Model.layers (Model.net model)) - 2) style_layers →
  (∃ ct tg st0,
     StyleTransfer.setup adam_init random_uniform StyleTransfer.notebook_cells
       model content_img style_img content_layer style_layers init_random
     = Py.Ok (ct, tg, st0))
  ∧ StyleTransfer.style_transfer_upto adam_init adam_rule tape_gradient
      random_uniform StyleTransfer.notebook_cells model content_img style_img
      content_layer content_weight style_layers style_weights tv_weight
      init_random 1 = Py.Raise Py.TypeError
  ∧ StyleTransfer.style_transfer adam_init adam_rule tape_gradient random_uniform
      StyleTransfer.notebook_cells model content_img style_img content_layer
      content_weight style_layers style_weights tv_weight init_random
    = Py.Raise Py.TypeError.
Proof.
  intros Hc Hs.
  destruct (setup_total adam_init random_uniform StyleTransfer.notebook_cells
              model content_img style_img content_layer style_layers
              init_random Hc Hs) as (ct & tg & st0 & Hsetup & _).
  assert (Hfirst : StyleTransfer.iteration adam_rule tape_gradient
                     StyleTransfer.notebook_cells model content_layer
                     content_weight style_layers style_weights tv_weight
                     ct tg 0 st0 = Py.Raise Py.TypeError).
  { unfold StyleTransfer.iteration, StyleTransfer.loss_at.
    destruct (index_Ok (StyleTransfer.extract_features (StyleTransfer.img_var st0) model)
                content_layer) as (feat & _ & ->);
      [by rewrite length_extract_features|].
    reflexivity. }
  split_and!.
  - by exists ct, tg, st0.
  - rewrite (upto_from_setup _ _ _ _ _ _ _ _ _ _ _ _ _ _ _ _ _ 1 Hsetup).
    change (seq 0 1) with [0]. cbn [StyleTransfer.for_each]. by rewrite Hfirst.
  - unfold StyleTransfer.style_transfer.
    rewrite (upto_from_setup _ _ _ _ _ _ _ _ _ _ _ _ _ _ _ _ _
               StyleTransfer.max_iter Hsetup).
    change (seq 0 StyleTransfer.max_iter) with (0 :: seq 1 199).
    cbn [StyleTransfer.for_each]. by rewrite Hfirst.
Qed.

Lemma style_transfer_as_it_stands_TypeError_witness :
  (∃ ct tg st0,
     StyleTransfer.setup tt id StyleTransfer.notebook_cells Examples.model9
       Examples.X23 Examples.X23 2 [0; 3; 5; 6] false
     = Py.Ok (ct, tg, st0))
  ∧ StyleTransfer.style_transfer_upto tt Examples.descent_rule
      Examples.ones_gradient id StyleTransfer.notebook_cells Examples.model9
      Examples.X23 Examples.X23 2 (6 # 100)%Q [0; 3; 5; 6]
      [300000; 1000; 15; 3]%Q (2 # 100)%Q false 1 = Py.Raise Py.TypeError
  ∧ StyleTransfer.style_transfer tt Examples.descent_rule Examples.ones_gradient
      id StyleTransfer.notebook_cells Examples.model9 Examples.X23 Examples.X23
      2 (6 # 100)%Q [0; 3; 5; 6] [300000; 1000; 15; 3]%Q (2 # 100)%Q false
    = Py.Raise Py.TypeError.
Proof.
  apply (style_transfer_as_it_stands_TypeError tt Examples.descent_rule
           Examples.ones_gradient id Examples.model9 Examples.X23 Examples.X23 2
           (6 # 100)%Q [0; 3; 5; 6] [300000; 1000; 15; 3]%Q (2 # 100)%Q false).
  - simpl. lia.
  - simpl. repeat constructor.
Defined.

(** ** [show_saliency_maps] *)

Section ShowSaliencyMaps.
Import Tensor Model NetworkVisualization ShowSaliency.



End ShowSaliencyMaps.



